(** * Proyecto-Financiero-IA: the dashboard code against its specification

    A shallow embedding of the JavaScript sources

    - [src/Models/PredictionModule.jsx]: modules [PredictionModule] and
      [PredictionView];
    - the application bundle (tables, simplified views, shell, offline API
      client): modules [App], [AppShell] and [ApiClient];
    - the analysis component: modules [AnalysisModule] and [AnalysisView];
    - the two components as event systems: module [Timed];

    and of the components that the specification describes and the sources
    do not contain: modules [SignalAggregator], [StrategyPolicy],
    [BacktestEngine] and [PerformanceAnalyzer].  Every definition of those
    is marked "Modelled from the spec".  The modules [Calm], [Scenario],
    [Reading], [Sample] and [Invariants] hold the predicates and the inputs
    that the statements use.

    Conventions of the embedding.

    - A finite JavaScript number is a rational [Q].  The code compares
      numbers and multiplies them by decimal constants; rounding to binary64
      is monotone, so an order fact [<=] proved on the exact values is an
      order fact of the rounded ones.  [NaN] and [undefined] are explicit
      where the code can produce them (type [Js.value]).
    - Where the code prints the result of an arithmetic expression with
      [toFixed(2)] the digits depend on the rounding: the expression is
      then evaluated in binary64 (module [Double], on the Standard Library's
      [SpecFloat]), and a decimal literal is the double nearest to it.  The
      historical prices of the prediction chart, of which the statements
      read the one of today, stay on the exact values.
    - A promise resolved from a timer callback is the value it resolves
      with; the delay is not modelled.  A callback that throws leaves the
      promise pending: [None].
    - [Math.random()] is an oracle [nat -> Q] read at a cursor that every
      call advances; [Date.now()], the local dates and [Math.sin] are
      inputs. *)

From stdpp Require Import gmap strings.
From Stdlib Require Import QArith Qround Qabs Qminmax Lqa ZArith Lia.
From Stdlib Require Import DecimalString DecimalPos DecimalZ.
From Stdlib Require SpecFloat.

Open Scope Q_scope.

(** ** JavaScript values and operators *)

Module Js.

(** The values the modelled code handles.  [VObject] stands for any object
    or function that has none of the data properties the code reads. *)
Inductive value : Type :=
| VUndefined
| VNull
| VBool (b : bool)
| VNum (q : Q)
| VNaN
| VStr (s : string)
| VObject.

(** [x > y] and [x >= y] on finite numbers. *)
Definition gtb (x y : Q) : bool := negb (Qle_bool x y).
Definition geb (x y : Q) : bool := Qle_bool y x.

(** ToBoolean. *)
Definition truthy (v : value) : bool :=
  match v with
  | VUndefined | VNull | VNaN => false
  | VBool b => b
  | VNum q => negb (Qeq_bool q 0)
  | VStr s => negb (String.eqb s "")
  | VObject => true
  end.

(** [a || b]. *)
Definition or (a b : value) : value := if truthy a then a else b.

(** [v === 'literal']. *)
Definition strict_eq_str (v : value) (lit : string) : bool :=
  match v with
  | VStr s => String.eqb s lit
  | _ => false
  end.

(** [v * k] for a numeric literal [k], where [v] is a number or
    [undefined] (no other operand reaches a product in the modelled code):
    ToNumber of [undefined] is [NaN]. *)
Definition mul_lit (v : value) (k : Q) : value :=
  match v with
  | VNum q => VNum (q * k)
  | _ => VNaN
  end.

(** [a <= b] on values that are numbers, [undefined] or [NaN]: a comparison
    with [NaN] (and [undefined] converts to [NaN]) is false. *)
Definition leb (a b : value) : bool :=
  match a, b with
  | VNum x, VNum y => Qle_bool x y
  | _, _ => false
  end.

(** The own property names of [Object.prototype]; every object literal
    inherits them, each bound to a function (or, for [__proto__], to an
    object). *)
Definition Object_prototype : gset string :=
  list_to_set
    [ "constructor"; "hasOwnProperty"; "isPrototypeOf";
      "propertyIsEnumerable"; "toLocaleString"; "toString"; "valueOf";
      "__defineGetter__"; "__defineSetter__"; "__lookupGetter__";
      "__lookupSetter__"; "__proto__" ].

(** The three outcomes of [obj[key]] on an object literal whose own
    properties are the map [obj]. *)
Inductive property (A : Type) : Type :=
| Own (a : A)
| Inherited
| Missing.
Arguments Own {A} a.
Arguments Inherited {A}.
Arguments Missing {A}.

Definition get {A : Type} (obj : gmap string A) (key : string) : property A :=
  match obj !! key with
  | Some a => Own a
  | None => if decide (key ∈ Object_prototype) then Inherited else Missing
  end.

(** What the code reads from its environment: [Math.sin] and the
    successive results of [Math.random()], each in [0,1). *)
Record Env : Type := mkEnv {
  sin : Q -> Q;
  random : nat -> Q
}.

(** [Math.random()]: the draw under the cursor, and the cursor moved on. *)
Definition Math_random (env : Env) (cursor : nat) : Q * nat :=
  (random env cursor, S cursor).

(** The string [x.toFixed(2)], for [|x| < 1e21]: an optional minus sign, then
    the decimal expansion of [n / 100] with two fractional digits, where
    [n] is the integer closest to [100 |x|], the larger one on a tie.  The
    string is represented by its sign and by [n]; two numbers that are 0.01
    or more apart have different strings, on doubles as on rationals. *)
Record Fixed2 : Type := mkFixed2 {
  negative : bool;
  hundredths : Z
}.

Definition toFixed2 (x : Q) : Fixed2 :=
  mkFixed2 (gtb 0 x) (Qfloor (Qabs x * 100 + (1 # 2))).

End Js.

(** ** Binary64 numbers *)

(** JavaScript numbers as they are: IEEE 754 binary64, every operation
    rounded to nearest, ties to even.  The operations are those of the
    Standard Library's [SpecFloat] at precision 53 and [emax] 1024. *)
Module Double.

Definition prec : Z := 53.
Definition emax : Z := 1024.

Definition t : Type := SpecFloat.spec_float.

Definition add : t -> t -> t := SpecFloat.SFadd prec emax.
Definition sub : t -> t -> t := SpecFloat.SFsub prec emax.
Definition mul : t -> t -> t := SpecFloat.SFmul prec emax.
Definition div : t -> t -> t := SpecFloat.SFdiv prec emax.

(** The double that a decimal literal denotes, and more generally the
    double nearest to a rational: the numerator divided by the denominator,
    rounded once.  It is [Infinity] from 2^1024 - 2^970 on. *)
Definition of_Q (q : Q) : t :=
  match Qnum (Qred q) with
  | Z0 => SpecFloat.S754_zero false
  | Zpos n =>
      div (SpecFloat.S754_finite false n 0)
          (SpecFloat.S754_finite false (Qden (Qred q)) 0)
  | Zneg n =>
      div (SpecFloat.S754_finite true n 0)
          (SpecFloat.S754_finite false (Qden (Qred q)) 0)
  end.

(** A loop counter. *)
Definition of_nat (n : nat) : t := of_Q (inject_Z (Z.of_nat n)).

(** The number [(-1)^s m 2^e]. *)
Definition value (s : bool) (m : positive) (e : Z) : Q :=
  let n := if s then Zneg m else Zpos m in
  match e with
  | Z0 => inject_Z n
  | Zpos _ => inject_Z (Z.shiftl n e)
  | Zneg k => Qmake n (Pos.shiftl 1 (Npos k))
  end.

(** The exact value of a finite double. *)
Definition to_Q (x : t) : option Q :=
  match x with
  | SpecFloat.S754_zero _ => Some 0
  | SpecFloat.S754_finite s m e => Some (value s m e)
  | SpecFloat.S754_infinity _ | SpecFloat.S754_nan => None
  end.

(** [Math.sin(x)]: the environment's sine at the value of [x], as a double;
    [NaN] at an infinity and at [NaN]. *)
Definition Math_sin (env : Js.Env) (x : t) : t :=
  match to_Q x with
  | Some q => of_Q (Js.sin env q)
  | None => SpecFloat.S754_nan
  end.

(** [Math.random()]: the draw under the cursor, as a double. *)
Definition Math_random (env : Js.Env) (cursor : nat) : t * nat :=
  (of_Q (Js.random env cursor), S cursor).

(** The string [x.toFixed(2)].  Below 1e21 it is the two-decimal string of
    the exact value of [x] ([Js.toFixed2]; "0.00" for both zeros); from 1e21
    on it is the string of [x] in exponent notation, which [Exponential]
    stands for; otherwise it is "Infinity", "-Infinity" or "NaN". *)
Inductive text : Type :=
| Digits (f : Js.Fixed2)
| Exponential (x : t)
| Infinity (negative : bool)
| NaN_text.

Definition toFixed2 (x : t) : text :=
  match x with
  | SpecFloat.S754_nan => NaN_text
  | SpecFloat.S754_infinity s => Infinity s
  | SpecFloat.S754_zero _ => Digits (Js.mkFixed2 false 0)
  | SpecFloat.S754_finite s m e =>
      if Qle_bool 1000000000000000000000 (Qabs (value s m e))
      then Exponential x
      else Digits (Js.toFixed2 (value s m e))
  end.

(** The same string where it is a number written out: the two-decimal string
    below 1e21, and from 1e21 on the number that the exponent notation
    denotes, which is the value of [x]. *)
Definition fixed2 (x : t) : option Js.Fixed2 :=
  match x with
  | SpecFloat.S754_zero _ => Some (Js.mkFixed2 false 0)
  | SpecFloat.S754_finite s m e => Some (Js.toFixed2 (value s m e))
  | SpecFloat.S754_infinity _ | SpecFloat.S754_nan => None
  end.

End Double.

Declare Scope double_scope.
Delimit Scope double_scope with D.
Notation "x + y" := (Double.add x y) : double_scope.
Notation "x - y" := (Double.sub x y) : double_scope.
Notation "x * y" := (Double.mul x y) : double_scope.
Notation "x / y" := (Double.div x y) : double_scope.

(** ** src/Models/PredictionModule.jsx *)

Module PredictionModule.

(** The options of the [<select>]: [selectedSymbol] ranges over them. *)
Inductive Symbol : Type :=
| AAPL | GOOGL | MSFT | TSLA | AMZN | BTC_USD | ETH_USD.

Definition SYMBOLS : list Symbol :=
  [AAPL; GOOGL; MSFT; TSLA; AMZN; BTC_USD; ETH_USD].

Definition symbol_name (s : Symbol) : string :=
  match s with
  | AAPL => "AAPL" | GOOGL => "GOOGL" | MSFT => "MSFT" | TSLA => "TSLA"
  | AMZN => "AMZN" | BTC_USD => "BTC-USD" | ETH_USD => "ETH-USD"
  end.

Record Prediction : Type := mkPrediction {
  currentPrice : Q;
  svm : string;
  lstm : Q;
  confidence : Q
}.

Definition PREDICTION_DATA (s : Symbol) : Prediction :=
  match s with
  | AAPL => mkPrediction 190.50 "subida" 195.50 0.78
  | GOOGL => mkPrediction 175.20 "bajada" 170.20 0.65
  | MSFT => mkPrediction 420.75 "subida" 430.75 0.82
  | TSLA => mkPrediction 248.90 "bajada" 240.90 0.71
  | AMZN => mkPrediction 178.30 "subida" 185.30 0.69
  | BTC_USD => mkPrediction 67890.50 "subida" 70000.50 0.75
  | ETH_USD => mkPrediction 3456.78 "bajada" 3300.78 0.68
  end.

(** The object stored by [setPredictionData]. *)
Record PredictionData : Type := mkPredictionData {
  pd_symbol : string;
  pd_currentPrice : Q;
  pd_svm : string;
  pd_lstm : Q;
  pd_confidence : Q;
  pd_source : string
}.

(** The component's [useState] cells. *)
Record State : Type := mkState {
  selectedSymbol : Symbol;
  predictionData : option PredictionData;
  loading : bool
}.

Definition initial : State := mkState AAPL None false.

(** [handlePredict], up to the timer: [setLoading(true)]. *)
Definition handlePredict_start (st : State) : State :=
  mkState (selectedSymbol st) (predictionData st) true.

(** The timer callback of [handlePredict]. *)
Definition handlePredict_timeout (st : State) : State :=
  let data := PREDICTION_DATA (selectedSymbol st) in
  mkState (selectedSymbol st)
          (Some (mkPredictionData (symbol_name (selectedSymbol st))
                                  (currentPrice data) (svm data) (lstm data)
                                  (confidence data) "offline"))
          false.

Definition handlePredict (st : State) : State :=
  handlePredict_timeout (handlePredict_start st).

(** The text of the "Recomendación" badge:
    [svm === 'subida' && lstm > currentPrice ? 'COMPRAR' : 'VENDER']. *)
Definition recommendation (svm : string) (lstm currentPrice : Q) : string :=
  if String.eqb svm "subida" && Js.gtb lstm currentPrice
  then "COMPRAR" else "VENDER".

(** The paragraph under the badge. *)
Definition recommendation_text (svm : string) (lstm currentPrice : Q) : string :=
  if String.eqb svm "subida" && Js.gtb lstm currentPrice
  then "Ambos modelos sugieren una tendencia alcista"
  else "Los modelos sugieren cautela o tendencia bajista".

(** The badge as rendered from a stored prediction. *)
Definition badge (p : PredictionData) : string :=
  recommendation (pd_svm p) (pd_lstm p) (pd_currentPrice p).



End PredictionModule.

(** ** The application bundle: tables and the simplified prediction view *)

Module App.

Import PredictionModule.

Record Market : Type := mkMarket {
  price : Q;
  change : Q;
  changePercent : Q;
  volume : Z
}.

Definition MARKET_DATA (s : Symbol) : Market :=
  match s with
  | AAPL => mkMarket 190.50 3.21 1.72 85000000
  | GOOGL => mkMarket 175.20 (-1.80) (-1.02) 23456789
  | MSFT => mkMarket 420.75 5.25 1.27 34567890
  | TSLA => mkMarket 248.90 (-8.10) (-3.15) 67890123
  | AMZN => mkMarket 178.30 3.45 1.97 28901234
  | BTC_USD => mkMarket 67890.50 1234.50 1.85 12345678
  | ETH_USD => mkMarket 3456.78 (-89.12) (-2.51) 9876543
  end.

Record Forecast : Type := mkForecast {
  svm : string;
  lstm : Q;
  confidence : Q
}.

Definition PREDICTION_DATA (s : Symbol) : Forecast :=
  match s with
  | AAPL => mkForecast "subida" 195.50 0.78
  | GOOGL => mkForecast "bajada" 170.20 0.65
  | MSFT => mkForecast "subida" 430.75 0.82
  | TSLA => mkForecast "bajada" 240.90 0.71
  | AMZN => mkForecast "subida" 185.30 0.69
  | BTC_USD => mkForecast "subida" 70000.50 0.75
  | ETH_USD => mkForecast "bajada" 3300.78 0.68
  end.

(** The badge of the bundle's [PredictionModule]: the same expression, the
    current price read from [MARKET_DATA]. *)
Definition badge (selectedSymbol : Symbol) : string :=
  let marketData := MARKET_DATA selectedSymbol in
  let predictionData := PREDICTION_DATA selectedSymbol in
  recommendation (svm predictionData) (lstm predictionData) (price marketData).

End App.

(** ** The application bundle: the offline API client *)

Module ApiClient.

(** A listener passed to [addConnectionListener]. *)
Definition Callback : Type := nat.

Record t : Type := mk {
  baseUrl : string;
  maxRetries : Z;
  retryDelay : Z;
  connectionStatus : string;
  listeners : list Callback;
  offlineMode : bool
}.

(** [constructor(baseUrl = null)]: the argument is not used. *)
Definition constructor (baseUrl : Js.value) : t :=
  mk "offline" 0 0 "offline" [] true.

(** The envelope every method resolves with. *)
Record Response (A : Type) : Type := mkResponse {
  success : bool;
  data : A;
  source : string
}.
Arguments mkResponse {A} success data source.
Arguments success {A} r.
Arguments data {A} r.
Arguments source {A} r.

(** *** login *)

Record Credentials : Type := mkCredentials {
  cred_username : Js.value;
  cred_password : Js.value
}.

Record User : Type := mkUser {
  username : Js.value;
  role : string;
  full_name : string
}.

Record Session : Type := mkSession {
  token : string;
  user : User
}.

Definition string_of_Z (z : Z) : string :=
  NilZero.string_of_int (Z.to_int z).

(** [login(credentials)], resolved at the time [now] that [Date.now()]
    returns.  The argument is a value that has properties ([Some]: an
    object, or a string, number or boolean, whose [username] is then
    [undefined]), or it is [undefined] or [null] ([None]); on the latter
    the timer callback throws on [credentials.username] before it calls
    [resolve], and the promise never settles ([None]). *)
Definition login (self : t) (credentials : option Credentials) (now : Z)
  : option (Response Session) :=
  match credentials with
  | None => None
  | Some credentials =>
      Some
        (mkResponse true
           (mkSession
              ("offline_token_" ++ string_of_Z now)
              (mkUser
                 (Js.or (cred_username credentials) (Js.VStr "demo"))
                 "demo"
                 (if Js.strict_eq_str (cred_username credentials) "admin"
                  then "Administrador" else "Usuario Demo")))
           "offline")
  end.

(** *** getPortfolio *)

Record Position : Type := mkPosition {
  symbol : string;
  quantity : Q;
  avgPrice : Q
}.

Record Portfolio : Type := mkPortfolio {
  cash : Q;
  positions : list Position;
  totalValue : Q
}.

Definition getPortfolio (self : t) : Response Portfolio :=
  mkResponse true
    (mkPortfolio 10000
       [ mkPosition "AAPL" 10 185.50; mkPosition "GOOGL" 5 170.20 ]
       12000)
    "offline".

(** *** getNews *)

Record News : Type := mkNews {
  title : string;
  summary : string;
  sentiment : string;
  date : string
}.

(** [getNews()]; [iso_now] is [new Date().toISOString()]. *)
Definition getNews (self : t) (iso_now : string) : Response (list News) :=
  mkResponse true
    [ mkNews "Mercados en alza tras datos económicos positivos"
             "Los índices principales muestran tendencia alcista..."
             "positive" iso_now;
      mkNews "Tecnológicas lideran las ganancias del día"
             "Apple y Microsoft registran aumentos significativos..."
             "positive" iso_now ]
    "offline".

(** *** generateMockMarketData *)

Record Quote : Type := mkQuote {
  price : Q;
  change : Q;
  changePercent : Q
}.

Definition marketBaseData : gmap string Quote :=
  list_to_map
    [ ("AAPL", mkQuote 190.50 3.21 1.72);
      ("GOOGL", mkQuote 175.20 (-1.80) (-1.02));
      ("MSFT", mkQuote 420.75 5.25 1.27);
      ("TSLA", mkQuote 248.90 (-8.10) (-3.15));
      ("AMZN", mkQuote 178.30 3.45 1.97);
      ("BTC-USD", mkQuote 67890.50 1234.50 1.85);
      ("ETH-USD", mkQuote 3456.78 (-89.12) (-2.51)) ].

(** [baseData[symbol] || baseData['AAPL']]: an own entry and an inherited
    property are both truthy; only a missing property takes the default. *)
Definition or_AAPL {A : Type} (baseData : gmap string A) (symbol : string)
  : Js.property A :=
  match Js.get baseData symbol with
  | Js.Missing => Js.get baseData "AAPL"
  | found => found
  end.

Record MarketData : Type := mkMarketData {
  md_symbol : string;
  md_price : Js.value;
  md_change : Js.value;
  md_changePercent : Js.value;
  md_volume : Z;
  md_high : Js.value;
  md_low : Js.value;
  md_open : Js.value
}.

(** [data.price], [data.change], [data.changePercent] on what
    [or_AAPL] found: [undefined] on an inherited function. *)
Definition field (data : Js.property Quote) (f : Quote -> Q) : option Js.value :=
  match data with
  | Js.Own q => Some (Js.VNum (f q))
  | Js.Inherited => Some Js.VUndefined
  | Js.Missing => None
  end.

(** [generateMockMarketData(symbol)]; [None] stands for the [TypeError] of
    reading a property of [undefined]. *)
Definition generateMockMarketData
    (self : t) (env : Js.Env) (symbol : string) (cursor : nat)
  : option MarketData * nat :=
  let data := or_AAPL marketBaseData symbol in
  match field data price, field data change, field data changePercent with
  | Some p, Some c, Some cp =>
      let (r, cursor') := Js.Math_random env cursor in
      (Some (mkMarketData symbol p c cp
               (Qfloor (r * 100000000))
               (Js.mul_lit p 1.05) (Js.mul_lit p 0.95) (Js.mul_lit p 0.98)),
       cursor')
  | _, _, _ => (None, cursor)
  end.

(** [getMarketData(symbol)]: the promise resolves unless the timer callback
    throws. *)
Definition getMarketData
    (self : t) (env : Js.Env) (symbol : string) (cursor : nat)
  : option (Response MarketData) * nat :=
  let (mockData, cursor') := generateMockMarketData self env symbol cursor in
  (option_map (fun d => mkResponse true d "offline") mockData, cursor').

(** [low <= open <= price <= high], each comparison as JavaScript makes
    it. *)
Definition ohlc_ordered (d : MarketData) : bool :=
  Js.leb (md_low d) (md_open d)
  && Js.leb (md_open d) (md_price d)
  && Js.leb (md_price d) (md_high d).

(** *** generateMockPredictions *)

Definition predictionBaseData : gmap string App.Forecast :=
  list_to_map
    [ ("AAPL", App.mkForecast "subida" 195.50 0.78);
      ("GOOGL", App.mkForecast "bajada" 170.20 0.65);
      ("MSFT", App.mkForecast "subida" 430.75 0.82);
      ("TSLA", App.mkForecast "bajada" 240.90 0.71);
      ("AMZN", App.mkForecast "subida" 185.30 0.69);
      ("BTC-USD", App.mkForecast "subida" 70000.50 0.75);
      ("ETH-USD", App.mkForecast "bajada" 3300.78 0.68) ].

Definition generateMockPredictions (self : t) (symbol : string)
  : Js.property App.Forecast :=
  or_AAPL predictionBaseData symbol.

Definition getPredictions (self : t) (symbol : string)
  : Response (Js.property App.Forecast) :=
  mkResponse true (generateMockPredictions self symbol) "offline".

(** *** Connection status *)

Definition getConnectionStatus (self : t) : string := "offline".

Definition addConnectionListener (self : t) (callback : Callback) : t := self.

Definition removeConnectionListener (self : t) (callback : Callback) : t := self.

Definition checkConnection (self : t) : bool := false.

(** *** The client as a state machine *)

Inductive Call : Type :=
| GetMarketData (symbol : string)
| GetPredictions (symbol : string)
| Login (credentials : option Credentials) (now : Z)
| GetPortfolio
| GetNews (iso_now : string)
| GenerateMockMarketData (symbol : string)
| GenerateMockPredictions (symbol : string)
| GetConnectionStatus
| AddConnectionListener (callback : Callback)
| RemoveConnectionListener (callback : Callback)
| CheckConnection.

(** The client together with the cursor of [Math.random()]. *)
Record World : Type := mkWorld {
  client : t;
  cursor : nat
}.

(** One method call: the world after it.  No method assigns a field of
    [this]. *)
Definition exec (env : Js.Env) (w : World) (c : Call) : World :=
  let self := client w in
  match c with
  | GetMarketData symbol =>
      mkWorld self (snd (getMarketData self env symbol (cursor w)))
  | GenerateMockMarketData symbol =>
      mkWorld self (snd (generateMockMarketData self env symbol (cursor w)))
  | AddConnectionListener callback =>
      mkWorld (addConnectionListener self callback) (cursor w)
  | RemoveConnectionListener callback =>
      mkWorld (removeConnectionListener self callback) (cursor w)
  | GetPredictions _ | Login _ _ | GetPortfolio | GetNews _
  | GenerateMockPredictions _ | GetConnectionStatus | CheckConnection => w
  end.

Definition run (env : Js.Env) (w : World) (calls : list Call) : World :=
  fold_left (exec env) calls w.

(** The worlds a program can reach from [new ApiClient(baseUrl)]. *)
Inductive reachable (env : Js.Env) : World -> Prop :=
| reach_new (baseUrl : Js.value) (cursor : nat) :
    reachable env (mkWorld (constructor baseUrl) cursor)
| reach_call (w : World) (c : Call) :
    reachable env w -> reachable env (exec env w c).

(** *** The portfolio marked to market *)

(** The current price of a symbol: the [price] of its mock market data. *)
Definition current_price (self : t) (env : Js.Env) (symbol : string) : Q :=
  match fst (generateMockMarketData self env symbol 0) with
  | Some d => match md_price d with Js.VNum q => q | _ => 0 end
  | None => 0
  end.

Definition position_value (price_of : string -> Q) (p : Position) : Q :=
  quantity p * price_of (symbol p).

(** [cash + sum of quantity * current price]. *)
Definition equity (price_of : string -> Q) (p : Portfolio) : Q :=
  cash p + fold_right Qplus 0 (List.map (position_value price_of) (positions p)).

End ApiClient.

(** ** The analysis component *)

Module AnalysisModule.

(** An entry of the data that [SimpleChart] draws: a date, a price that is a
    two-decimal string, and a day. *)
Record Bar : Type := mkBar {
  date : string;
  price : Js.Fixed2;
  day : nat
}.

Record AnalysisData : Type := mkAnalysisData {
  ad_symbol : string;
  ad_price : Q;
  ad_change : Q;
  ad_changePercent : Q;
  ad_volume : Z;
  ad_source : string
}.

(** [handleAnalyze], timer callback included. *)
Definition handleAnalyze (selectedSymbol : PredictionModule.Symbol)
  : AnalysisData :=
  let data := App.MARKET_DATA selectedSymbol in
  mkAnalysisData (PredictionModule.symbol_name selectedSymbol)
                 (App.price data) (App.change data) (App.changePercent data)
                 (App.volume data) "offline".

(** An entry of [chartData] as [generateSimpleChart] builds it: [price] is
    the string [price.toFixed(2)]. *)
Record Entry : Type := mkEntry {
  entry_date : string;
  entry_price : Double.text;
  entry_day : nat
}.

(** The body of the loop of [generateSimpleChart] for the day [i], given
    the result [r] of [Math.random()]; [date_label i] is the string
    [toLocaleDateString()] gives, at the time of the call, for the date [i]
    days before. *)
Definition entry (env : Js.Env) (date_label : nat -> string)
    (basePrice : Double.t) (i : nat) (r : Double.t) : Entry :=
  let variation :=
    ((Double.Math_sin env (Double.of_nat i * Double.of_Q 0.1)
      + r * Double.of_Q 0.4 - Double.of_Q 0.2) * Double.of_Q 0.05)%D in
  let price := (basePrice * (Double.of_nat 1 + variation))%D in
  mkEntry (date_label i) (Double.toFixed2 price) i.

(** [for (let i = days; i >= 0; i--) { ... chartData.push(...) }]. *)
Fixpoint chart_loop (env : Js.Env) (date_label : nat -> string)
    (basePrice : Double.t) (i : nat) (cursor : nat) : list Entry * nat :=
  let (r, cursor') := Double.Math_random env cursor in
  let b := entry env date_label basePrice i r in
  match i with
  | O => ([b], cursor')
  | S i' =>
      let (rest, cursor'') := chart_loop env date_label basePrice i' cursor' in
      (b :: rest, cursor'')
  end.

Definition days : nat := 30.

(** [generateSimpleChart()] of the component: [null] before the first
    analysis has arrived. *)
Definition generateSimpleChart (env : Js.Env) (date_label : nat -> string)
    (analysisData : option AnalysisData) (cursor : nat)
  : option (list Entry) * nat :=
  match analysisData with
  | None => (None, cursor)
  | Some a =>
      let (chartData, cursor') :=
        chart_loop env date_label (Double.of_Q (ad_price a)) days cursor in
      (Some chartData, cursor')
  end.

(** The chart of the bundle's [AnalysisModule]: the same loop on
    [MARKET_DATA[selectedSymbol].price]; its entries have no date. *)
Definition generateSimpleChart_bundle (env : Js.Env)
    (selectedSymbol : PredictionModule.Symbol) (cursor : nat)
  : list Entry * nat :=
  chart_loop env (fun _ => "")
             (Double.of_Q (App.price (App.MARKET_DATA selectedSymbol)))
             days cursor.

End AnalysisModule.

(** ** SignalAggregator *)

Module SignalAggregator.

(** Modelled from the spec: the vote of the direction classifier (section 3,
    Signal.direction). *)
Inductive Direction : Type := up | down.

(** Modelled from the spec: the Signal of section 3. *)
Record Signal : Type := mkSignal {
  asset : string;
  timestamp : Z;
  direction : Direction;
  forecast_price : Q;
  confidence : Q
}.

(** Modelled from the spec: the Score of section 3. *)
Record Score : Type := mkScore {
  score_asset : string;
  score_timestamp : Z;
  value : Q
}.

(** Modelled from the spec: the error of the aggregator (section 7). *)
Inductive Error : Type := InvalidSignalError.

(** Modelled from the spec: the directional sign of the classifier, [+1]
    for up and [-1] for down. *)
Definition classifier_sign (d : Direction) : Q :=
  match d with up => 1 | down => -1 end.

(** Modelled from the spec: [sign(pct)]. *)
Definition sign (x : Q) : Q :=
  if Js.gtb x 0 then 1 else if Js.gtb 0 x then -1 else 0.

(** Modelled from the spec: clamping to [-1,1]. *)
Definition clamp (x : Q) : Q := Qmax (-1) (Qmin 1 x).

(** Modelled from the spec: the percent forecast change
    [(forecast_price - current_price) / current_price]. *)
Definition pct (signal : Signal) (current_price : Q) : Q :=
  (forecast_price signal - current_price) / current_price.

(** Modelled from the spec: the inputs that [fuse] accepts: a confidence in
    [0,1] and a positive price. *)
Definition valid (signal : Signal) (current_price : Q) : bool :=
  Qle_bool 0 (confidence signal) && Qle_bool (confidence signal) 1
  && Js.gtb current_price 0.

(** Modelled from the spec: the value of the score of section 4.1.
    Magnitude [min(1, |pct| / cap)], halved when the sign of [pct] disagrees
    with the classifier; score 0 when [pct == 0]; the product
    [confidence * classifier_sign * magnitude] clamped to [-1,1]. *)
Definition score_value (signal : Signal) (current_price cap : Q) : Q :=
  let p := pct signal current_price in
  let magnitude := Qmin 1 (Qabs p / cap) in
  let s := classifier_sign (direction signal) in
  if Qeq_bool p 0 then 0
  else
    let magnitude' :=
      if Qeq_bool (sign p) s then magnitude else magnitude / 2 in
    clamp (confidence signal * s * magnitude').

(** Modelled from the spec: the fusion function [fuse(signal, current_price,
    cap)] of section 4.1, which the sources do not contain.  It fails with
    [InvalidSignalError] when the confidence is outside [0,1] or the price
    is not positive. *)
Definition fuse (signal : Signal) (current_price cap : Q) : Score + Error :=
  if valid signal current_price then
    inl (mkScore (asset signal) (timestamp signal)
                 (score_value signal current_price cap))
  else inr InvalidSignalError.

(** Modelled from the spec: a batch over several assets (section 7); a
    rejected signal aborts the run of its own asset only. *)
Definition fuse_batch (cap : Q) (inputs : list (Signal * Q))
  : list (Score + Error) :=
  List.map (fun '(signal, current_price) => fuse signal current_price cap)
           inputs.

End SignalAggregator.

(** ** StrategyPolicy *)

Module StrategyPolicy.

Import SignalAggregator.

(** Modelled from the spec: the three profiles (section 3). *)
Inductive Profile : Type := conservative | moderate | aggressive.

(** Modelled from the spec: the StrategyConfig of section 3, with the
    permission of fractional shares that section 4.2 refers to. *)
Record StrategyConfig : Type := mkConfig {
  profile : Profile;
  entry_threshold : Q;
  position_fraction : Q;
  stop_loss_pct : Q;
  take_profit_pct : Q;
  commission_bps : Q;
  fractional_shares : bool
}.

(** Modelled from the spec: the default parameters of the three profiles
    (section 4.2); the commission and the permission of fractional shares
    are left to the caller. *)
Definition default_config (p : Profile) (commission_bps : Q)
    (fractional_shares : bool) : StrategyConfig :=
  match p with
  | conservative =>
      mkConfig conservative 0.6 0.10 0.03 0.05 commission_bps fractional_shares
  | moderate =>
      mkConfig moderate 0.45 0.25 0.05 0.08 commission_bps fractional_shares
  | aggressive =>
      mkConfig aggressive 0.30 0.40 0.08 0.15 commission_bps fractional_shares
  end.

(** Modelled from the spec: the configurations that [ConfigError] does not
    reject (section 7): positive thresholds, fraction in (0,1], commission
    not negative. *)
Definition valid_config (config : StrategyConfig) : bool :=
  Js.gtb (entry_threshold config) 0
  && Js.gtb (stop_loss_pct config) 0
  && Js.gtb (take_profit_pct config) 0
  && Js.gtb (position_fraction config) 0
  && Qle_bool (position_fraction config) 1
  && Qle_bool 0 (commission_bps config).

(** Modelled from the spec: the Position of section 3. *)
Record Position : Type := mkPosition {
  pos_asset : string;
  quantity : Q;
  avg_entry_price : Q
}.

(** Modelled from the spec: the Portfolio of section 3.  A run is for one
    asset, so the mapping asset -> Position has the one entry kept here. *)
Record Portfolio : Type := mkPortfolio {
  cash : Q;
  position : Position;
  equity_curve : list (Z * Q)
}.

(** Modelled from the spec: the actions of section 4.2. *)
Inductive Action : Type :=
| BUY (size : Q)
| SELL (size : Q)
| HOLD.

(** Modelled from the spec: quantity 0 means flat (section 3). *)
Definition is_flat (p : Position) : bool := Qeq_bool (quantity p) 0.

(** Modelled from the spec: the size of an entry,
    [position_fraction * cash / current_price], truncated to a whole unit
    when fractional shares are not allowed (section 4.2). *)
Definition entry_size (portfolio : Portfolio) (config : StrategyConfig)
    (current_price : Q) : Q :=
  let size := position_fraction config * cash portfolio / current_price in
  if fractional_shares config then size else inject_Z (Qfloor size).

(** Modelled from the spec: [decide(score, position, portfolio, config)] of
    section 4.2, with the current price that the size is computed from.
    Enter when flat, [|score| >= entry_threshold] and the score is positive;
    exit when open and the score is beyond [-entry_threshold]; otherwise
    hold. *)
Definition decide (score : Score) (position : Position)
    (portfolio : Portfolio) (config : StrategyConfig) (current_price : Q)
  : Action :=
  if is_flat position then
    if Qle_bool (entry_threshold config) (Qabs (value score))
       && Js.gtb (value score) 0
    then BUY (entry_size portfolio config current_price)
    else HOLD
  else
    if Js.gtb (- entry_threshold config) (value score)
    then SELL (quantity position)
    else HOLD.

End StrategyPolicy.

(** ** BacktestEngine *)

Module BacktestEngine.

Import SignalAggregator StrategyPolicy.

(** Modelled from the spec: the PriceBar of section 3, of the asset of the
    run. *)
Record PriceBar : Type := mkPriceBar {
  bar_timestamp : Z;
  open : Q;
  high : Q;
  low : Q;
  close : Q;
  volume : Q
}.

(** Modelled from the spec: the Trade of section 3. *)
Record Trade : Type := mkTrade {
  trade_asset : string;
  entry_timestamp : Z;
  exit_timestamp : Z;
  entry_price : Q;
  exit_price : Q;
  trade_quantity : Q;
  pnl : Q
}.

(** Modelled from the spec: the errors of section 7. *)
Inductive Error : Type :=
| InvalidSignal
| ConfigError
| DataGapError.

(** Modelled from the spec: the state of a run (section 3, lifecycles): the
    portfolio, when and at what fee the open position was entered, and the
    trade log. *)
Record Run : Type := mkRun {
  portfolio : Portfolio;
  opened_at : Z;
  entry_fee : Q;
  trade_log : list Trade
}.

(** Modelled from the spec: the per-asset state LONG of section 4.3. *)
Definition is_long (r : Run) : bool := negb (is_flat (position (portfolio r))).

(** Modelled from the spec: the commission on a notional amount, in basis
    points (section 4.3). *)
Definition fee (config : StrategyConfig) (notional : Q) : Q :=
  notional * commission_bps config / 10000.

(** Modelled from the spec: LONG -> FLAT at [price] (section 4.3): credit
    the notional less the commission and emit the trade. *)
Definition close_position (config : StrategyConfig) (r : Run)
    (timestamp : Z) (price : Q) : Run :=
  let pf := portfolio r in
  let pos := position pf in
  let notional := quantity pos * price in
  let f := fee config notional in
  mkRun
    (mkPortfolio (cash pf + notional - f)
                 (mkPosition (pos_asset pos) 0 0)
                 (equity_curve pf))
    (opened_at r) 0
    (trade_log r
     ++ [ mkTrade (pos_asset pos) (opened_at r) timestamp
                  (avg_entry_price pos) price (quantity pos)
                  ((price - avg_entry_price pos) * quantity pos
                   - entry_fee r - f) ]).

(** Modelled from the spec: FLAT -> LONG at [price] (section 4.3): the size
    is capped to what the cash affords, commission included; a quantity of 0
    degrades to HOLD. *)
Definition open_position (config : StrategyConfig) (r : Run)
    (timestamp : Z) (price size : Q) : Run :=
  let pf := portfolio r in
  let unit_cost := price * (1 + commission_bps config / 10000) in
  let affordable := cash pf / unit_cost in
  let capped := Qmin size affordable in
  let q := if fractional_shares config then capped
           else inject_Z (Qfloor capped) in
  if Js.gtb q 0 then
    let f := fee config (q * price) in
    mkRun
      (mkPortfolio (cash pf - q * price - f)
                   (mkPosition (pos_asset (position pf)) q price)
                   (equity_curve pf))
      timestamp f (trade_log r)
  else r.

(** Modelled from the spec: step 1 of section 4.3, stop-loss and take-profit
    against the low and the high of the bar; a hit closes at the trigger
    price. *)
Definition protective_exit (config : StrategyConfig) (r : Run)
    (bar : PriceBar) : Run :=
  if is_long r then
    let entry := avg_entry_price (position (portfolio r)) in
    let stop := entry * (1 - stop_loss_pct config) in
    let target := entry * (1 + take_profit_pct config) in
    if Qle_bool (low bar) stop then
      close_position config r (bar_timestamp bar) stop
    else if Qle_bool target (high bar) then
      close_position config r (bar_timestamp bar) target
    else r
  else r.

(** Modelled from the spec: step 4 of section 4.3, the action applied at the
    close of the bar. *)
Definition apply_action (config : StrategyConfig) (r : Run)
    (bar : PriceBar) (a : Action) : Run :=
  match a with
  | BUY size => open_position config r (bar_timestamp bar) (close bar) size
  | SELL _ => close_position config r (bar_timestamp bar) (close bar)
  | HOLD => r
  end.

(** Modelled from the spec: step 5 of section 4.3, the equity at the close
    of the bar, appended to the curve. *)
Definition mark (r : Run) (bar : PriceBar) : Run :=
  let pf := portfolio r in
  mkRun
    (mkPortfolio (cash pf) (position pf)
       (equity_curve pf
        ++ [ (bar_timestamp bar,
              cash pf + quantity (position pf) * close bar) ]))
    (opened_at r) (entry_fee r) (trade_log r).

(** Modelled from the spec: one time step of section 4.3, in its fixed
    order: protective exits, signal lookup (none: hold), score at the close
    of the bar, policy decision and its application, equity record.  A
    signal that [fuse] rejects aborts the run. *)
Definition step (config : StrategyConfig) (cap : Q)
    (signals : gmap Z Signal) (r : Run) (bar : PriceBar) : Run + Error :=
  let r1 := protective_exit config r bar in
  match signals !! bar_timestamp bar with
  | None => inl (mark r1 bar)
  | Some signal =>
      match fuse signal (close bar) cap with
      | inr InvalidSignalError => inr InvalidSignal
      | inl score =>
          let a := decide score (position (portfolio r1)) (portfolio r1)
                          config (close bar) in
          inl (mark (apply_action config r1 bar a) bar)
      end
  end.

(** Modelled from the spec: the bars replayed in order; an error ends the
    run. *)
Fixpoint steps (config : StrategyConfig) (cap : Q)
    (signals : gmap Z Signal) (r : Run) (bars : list PriceBar)
  : Run + Error :=
  match bars with
  | [] => inl r
  | bar :: rest =>
      match step config cap signals r bar with
      | inl r' => steps config cap signals r' rest
      | inr e => inr e
      end
  end.

(** Modelled from the spec: the initial state, flat with the initial
    capital in cash. *)
Definition start (asset : string) (initial_capital : Q) : Run :=
  mkRun (mkPortfolio initial_capital (mkPosition asset 0 0) []) 0 0 [].

(** Modelled from the spec: a backtest of one asset under one
    configuration: the configuration is checked, an empty price history is
    a data gap, and the bars are replayed in order from a flat portfolio
    holding the initial capital. *)
Definition run (config : StrategyConfig) (cap : Q) (asset : string)
    (initial_capital : Q) (signals : gmap Z Signal) (bars : list PriceBar)
  : Run + Error :=
  if valid_config config then
    match bars with
    | [] => inr DataGapError
    | _ => steps config cap signals (start asset initial_capital) bars
    end
  else inr ConfigError.

(** Modelled from the spec: the number of trades of a completed run, the
    length of its trade log. *)
Definition trade_count (result : Run + Error) : option nat :=
  match result with
  | inl r => Some (length (trade_log r))
  | inr _ => None
  end.

End BacktestEngine.

(** ** Calm price histories *)

Module Calm.

Import SignalAggregator StrategyPolicy BacktestEngine.

(** The per-asset state of a run. *)
Inductive AssetState : Type := FLAT | LONG.

Definition state_of (r : Run) : AssetState :=
  if is_long r then LONG else FLAT.

(** What the policy alone does to the state and to the number of trades,
    given the score of the bar (none when there is no signal): the entry and
    exit tests of [decide]. *)
Definition signal_transition (threshold : Q) (score : option Q)
    (s : AssetState) (trades : nat) : AssetState * nat :=
  match score with
  | None => (s, trades)
  | Some v =>
      match s with
      | FLAT =>
          if Qle_bool threshold (Qabs v) && Js.gtb v 0
          then (LONG, trades) else (FLAT, trades)
      | LONG =>
          if Js.gtb (- threshold) v then (FLAT, S trades) else (LONG, trades)
      end
  end.

(** One trade in hand: the first run is long while the second is flat. *)
Definition lag (sC sA : AssetState) : nat :=
  match sC, sA with LONG, FLAT => 1 | _, _ => 0 end.

(** The bar stays strictly inside the stop and the target of a position
    entered at [entry]. *)
Definition untouched (config : StrategyConfig) (entry : Q) (bar : PriceBar)
  : Prop :=
  entry * (1 - stop_loss_pct config) < low bar
  /\ high bar < entry * (1 + take_profit_pct config).

(** A price history on which no stop-loss and no take-profit of [config] can
    trigger: every bar is untouched for an entry at the close of any earlier
    bar. *)
Fixpoint calm (config : StrategyConfig) (bars : list PriceBar) : Prop :=
  match bars with
  | [] => True
  | bar :: rest => Forall (untouched config (close bar)) rest /\ calm config rest
  end.

(** What holds of a run between two bars of a calm history: the quantity and
    the cash are not negative, a flat run has cash, and an open position is
    untouched by every bar still to come. *)
Definition sound (config : StrategyConfig) (r : Run) (rest : list PriceBar)
  : Prop :=
  0 <= quantity (position (portfolio r))
  /\ 0 <= cash (portfolio r)
  /\ (quantity (position (portfolio r)) == 0 -> 0 < cash (portfolio r))
  /\ (0 < quantity (position (portfolio r)) ->
      Forall (untouched config (avg_entry_price (position (portfolio r)))) rest).

(** Every close is positive. *)
Definition priced (bars : list PriceBar) : Prop :=
  Forall (fun bar => 0 < close bar) bars.

(** Every signal carries a confidence in [0,1]. *)
Definition signals_valid (signals : gmap Z Signal) : Prop :=
  forall (t : Z) (s : Signal),
    signals !! t = Some s -> 0 <= confidence s <= 1.

End Calm.

(** ** PerformanceAnalyzer *)

Module PerformanceAnalyzer.

(** Modelled from the spec: the drawdown [(peak - equity) / peak] at every
    point of a curve (section 4.4), the running maximum starting from
    [peak]. *)
Fixpoint drawdowns (peak : Q) (equity : list Q) : list Q :=
  match equity with
  | [] => []
  | e :: rest =>
      let peak' := Qmax peak e in
      (peak' - e) / peak' :: drawdowns peak' rest
  end.

(** Modelled from the spec: [max_drawdown = max_i (peak_i - equity_i) /
    peak_i] of section 4.4, [peak_i] the running maximum of the equity up
    to and including [i]; 0 on an empty curve. *)
Definition max_drawdown (equity : list Q) : Q :=
  match equity with
  | [] => 0
  | e0 :: _ => fold_right Qmax 0 (drawdowns e0 equity)
  end.

(** A curve whose every value is at least the one before it. *)
Fixpoint non_decreasing (equity : list Q) : Prop :=
  match equity with
  | x :: (y :: _) as rest => x <= y /\ non_decreasing rest
  | _ => True
  end.

(** Modelled from the spec: [win_rate], 0 when there are no trades. *)
Definition win_rate (trades : list BacktestEngine.Trade) : Q :=
  match trades with
  | [] => 0
  | _ =>
      inject_Z (Z.of_nat
                  (length (List.filter
                             (fun t => Js.gtb (BacktestEngine.pnl t) 0)
                             trades)))
      / inject_Z (Z.of_nat (length trades))
  end.

End PerformanceAnalyzer.

(** ** Two price histories for the two profiles *)

Module Scenario.

Import SignalAggregator StrategyPolicy BacktestEngine.

(** An upward vote with a forecast 10% above a price of 100: score 1 at a cap
    of 5%. *)
Definition strong_buy (t : Z) : Signal := mkSignal "AAPL" t up 110 1.

(** Four bars that close at 100 after dipping to 96: below the conservative
    stop at 97, above the aggressive stop at 92. *)
Definition dipping_bars : list PriceBar :=
  [ mkPriceBar 1 100 100 96 100 1000; mkPriceBar 2 100 100 96 100 1000;
    mkPriceBar 3 100 100 96 100 1000; mkPriceBar 4 100 100 96 100 1000 ].

Definition buy_signals : gmap Z Signal :=
  list_to_map
    [ (1%Z, strong_buy 1); (2%Z, strong_buy 2);
      (3%Z, strong_buy 3); (4%Z, strong_buy 4) ].

(** Four bars between 99 and 101: inside the stops and targets of both
    profiles. *)
Definition quiet_bars : list PriceBar :=
  [ mkPriceBar 1 100 101 99 100 1000; mkPriceBar 2 100 101 99 100 1000;
    mkPriceBar 3 100 101 99 100 1000; mkPriceBar 4 100 101 99 100 1000 ].

(** Scores 1, -1, 0.4 and -0.4 at a cap of 5%. *)
Definition mixed_signals : gmap Z Signal :=
  list_to_map
    [ (1%Z, mkSignal "AAPL" 1 up 110 1); (2%Z, mkSignal "AAPL" 2 down 90 1);
      (3%Z, mkSignal "AAPL" 3 up 102 1); (4%Z, mkSignal "AAPL" 4 down 98 1) ].

End Scenario.

(** ** The classifier vote and the badge, side by side *)

Module Reading.

Import SignalAggregator.

(** The prediction record of the code read as a signal. *)
Definition signal_of (p : PredictionModule.PredictionData) : Signal :=
  mkSignal (PredictionModule.pd_symbol p) 0
           (if String.eqb (PredictionModule.pd_svm p) "subida" then up else down)
           (PredictionModule.pd_lstm p) (PredictionModule.pd_confidence p).

End Reading.

(** ** JavaScript numbers that may not be finite *)

Module JsNum.

(** A number: finite, an infinity, or [NaN]. *)
Inductive number : Type :=
| Fin (q : Q)
| Inf (negative : bool)
| NaN.

(** [a / b] on finite numbers, where a zero divisor is [+0] (a difference
    [x - x] or a length minus one): [0 / 0] is [NaN], and [a / 0] is the
    infinity of the sign of [a]. *)
Definition div (a b : Q) : number :=
  if Qeq_bool b 0 then
    if Qeq_bool a 0 then NaN else Inf (Js.gtb 0 a)
  else Fin (a / b).

(** [v * 100]. *)
Definition times100 (v : number) : number :=
  match v with
  | Fin q => Fin (q * 100)
  | Inf s => Inf s
  | NaN => NaN
  end.

(** [100 - v]. *)
Definition from100 (v : number) : number :=
  match v with
  | Fin q => Fin (100 - q)
  | Inf s => Inf (negb s)
  | NaN => NaN
  end.

(** [parseFloat(s)] of a string that [toFixed(2)] produced. *)
Definition parseFloat (s : Js.Fixed2) : Q :=
  (if Js.negative s then - inject_Z (Js.hundredths s)
   else inject_Z (Js.hundredths s)) / 100.

(** [Math.max(x, ...xs)] and [Math.min(x, ...xs)] on finite numbers. *)
Definition Math_max (x : Q) (xs : list Q) : Q := fold_left Qmax xs x.
Definition Math_min (x : Q) (xs : list Q) : Q := fold_left Qmin xs x.

End JsNum.

(** ** The coordinates of a polyline *)

Module Polyline.

(** The two coordinates of a point, in percent. *)
Record Point : Type := mkPoint {
  x : JsNum.number;
  y : JsNum.number
}.

(** [y = 100 - ((parseFloat(point.price) - minPrice) / priceRange) * 100]. *)
Definition y_of (minPrice priceRange : Q) (price : Js.Fixed2) : JsNum.number :=
  JsNum.from100
    (JsNum.times100 (JsNum.div (JsNum.parseFloat price - minPrice) priceRange)).

(** [x = (index / (data.length - 1)) * 100]. *)
Definition x_of (length : nat) (index : Z) : JsNum.number :=
  JsNum.times100
    (JsNum.div (inject_Z index) (inject_Z (Z.of_nat length) - 1)).

(** [list.map((point, index) => f index point)], the indices from [i] on. *)
Fixpoint map_index {A B : Type} (f : Z -> A -> B) (i : Z) (l : list A)
  : list B :=
  match l with
  | [] => []
  | a :: rest => f i a :: map_index f (i + 1)%Z rest
  end.

(** What a component returns: [null], a drawing, or nothing at all because
    the render threw a [TypeError]. *)
Inductive rendered (A : Type) : Type :=
| Null
| Drawn (a : A)
| TypeError.
Arguments Null {A}.
Arguments Drawn {A} a.
Arguments TypeError {A}.

End Polyline.

(** ** src/Models/PredictionModule.jsx: what the card shows *)

Module PredictionView.

Import PredictionModule.



(** "Cambio esperado": the class, the sign written before the number, and
    the number [((lstm - currentPrice) / currentPrice * 100).toFixed(2)]. *)
Definition change_class (p : PredictionData) : string :=
  if Js.gtb (pd_lstm p) (pd_currentPrice p)
  then "text-green-600" else "text-red-600".

Definition change_sign (p : PredictionData) : string :=
  if Js.gtb (pd_lstm p) (pd_currentPrice p) then "+" else "".

Definition change_percent (p : PredictionData) : Double.text :=
  let lstm := Double.of_Q (pd_lstm p) in
  let currentPrice := Double.of_Q (pd_currentPrice p) in
  Double.toFixed2
    ((lstm - currentPrice) / currentPrice * Double.of_nat 100)%D.

(** A point of the prediction chart; [day] is negative in the past. *)
Record ChartPoint : Type := mkChartPoint {
  cp_date : string;
  cp_price : Js.Fixed2;
  cp_type : string;
  cp_day : Z
}.

Definition days : nat := 7.

(** The body of the first loop of [generatePredictionChart]; [date_label d]
    is the local date [d] days from today.  The sine is an input, and the
    price is taken on the exact values: for today, where the sine is 0, it
    is the current price, as in binary64. *)
Definition historical_point (env : Js.Env) (date_label : Z -> string)
    (currentPrice : Q) (i : nat) : ChartPoint :=
  let variation := Js.sin env (inject_Z (Z.of_nat i) * 0.2) * 0.02 in
  let price := currentPrice * (1 + variation) in
  mkChartPoint (date_label (- Z.of_nat i)%Z) (Js.toFixed2 price) "historical"
               (- Z.of_nat i)%Z.

(** [for (let i = days; i >= 0; i--)]. *)
Fixpoint historical_loop (env : Js.Env) (date_label : Z -> string)
    (currentPrice : Q) (i : nat) : list ChartPoint :=
  historical_point env date_label currentPrice i
  :: match i with
     | O => []
     | S i' => historical_loop env date_label currentPrice i'
     end.

(** The price of the second loop, as binary64 computes it:
    [currentPrice + (targetPrice - currentPrice) * progress] with
    [progress = i / days]. *)
Definition prediction_price (currentPrice lstmPrice : Q) (i : nat)
  : Double.t :=
  let currentPrice := Double.of_Q currentPrice in
  let targetPrice := Double.of_Q lstmPrice in
  let progress := (Double.of_nat i / Double.of_nat days)%D in
  (currentPrice + (targetPrice - currentPrice) * progress)%D.

(** The body of the second loop.  The entry holds [price.toFixed(2)] of
    the binary64 price.  When that price is not finite the string is
    "Infinity" or "NaN", which [Js.Fixed2] does not hold: the entry then has
    the two-decimal string of the exact price. *)
Definition prediction_point (date_label : Z -> string)
    (currentPrice lstmPrice : Q) (i : nat) : ChartPoint :=
  let progress := inject_Z (Z.of_nat i) / inject_Z (Z.of_nat days) in
  let targetPrice := lstmPrice in
  let price := currentPrice + (targetPrice - currentPrice) * progress in
  mkChartPoint (date_label (Z.of_nat i))
               (match Double.fixed2
                        (prediction_price currentPrice lstmPrice i) with
                | Some digits => digits
                | None => Js.toFixed2 price
                end)
               "prediction" (Z.of_nat i).

(** [for (let i = 1; i <= days; i++)]: the iterations from [i] on, [n] of
    them. *)
Fixpoint prediction_loop (date_label : Z -> string)
    (currentPrice lstmPrice : Q) (n i : nat) : list ChartPoint :=
  match n with
  | O => []
  | S n' =>
      prediction_point date_label currentPrice lstmPrice i
      :: prediction_loop date_label currentPrice lstmPrice n' (S i)
  end.

(** [generatePredictionChart()]: [null] before the first prediction. *)
Definition generatePredictionChart (env : Js.Env) (date_label : Z -> string)
    (predictionData : option PredictionData) : option (list ChartPoint) :=
  match predictionData with
  | None => None
  | Some p =>
      let currentPrice := pd_currentPrice p in
      let lstmPrice := pd_lstm p in
      Some (historical_loop env date_label currentPrice days
            ++ prediction_loop date_label currentPrice lstmPrice days 1)
  end.

(** What [PredictionChart] draws: the historical polyline, the prediction
    polyline, the circle of the current point and the labels of the axis. *)
Record Drawing : Type := mkDrawing {
  historical_line : list Polyline.Point;
  prediction_line : list Polyline.Point;
  current_point : Polyline.Point;
  maxPrice : Q;
  minPrice : Q
}.

(** [PredictionChart({ data })]: [null] for no data or an empty list.  The
    current point reads the last historical entry; when there is none,
    reading [price] of [undefined] throws. *)
Definition PredictionChart (data : option (list ChartPoint))
  : Polyline.rendered Drawing :=
  match data with
  | None | Some [] => Polyline.Null
  | Some ((d0 :: rest) as data) =>
      let historicalData :=
        List.filter (fun d => String.eqb (cp_type d) "historical") data in
      let predictionData :=
        List.filter (fun d => String.eqb (cp_type d) "prediction") data in
      let allPrices := List.map (fun d => JsNum.parseFloat (cp_price d)) rest in
      let maxPrice := JsNum.Math_max (JsNum.parseFloat (cp_price d0)) allPrices in
      let minPrice := JsNum.Math_min (JsNum.parseFloat (cp_price d0)) allPrices in
      let priceRange := maxPrice - minPrice in
      match List.last (List.map Some historicalData) None with
      | None => Polyline.TypeError
      | Some point =>
          Polyline.Drawn
            (mkDrawing
               (Polyline.map_index
                  (fun index point =>
                     Polyline.mkPoint
                       (Polyline.x_of (length data) index)
                       (Polyline.y_of minPrice priceRange (cp_price point)))
                  0%Z historicalData)
               (Polyline.map_index
                  (fun index point =>
                     let totalIndex :=
                       (Z.of_nat (length historicalData) + index - 1)%Z in
                     Polyline.mkPoint
                       (Polyline.x_of (length data) totalIndex)
                       (Polyline.y_of minPrice priceRange (cp_price point)))
                  0%Z predictionData)
               (Polyline.mkPoint
                  (Polyline.x_of (length data)
                                 (Z.of_nat (length historicalData) - 1)%Z)
                  (Polyline.y_of minPrice priceRange (cp_price point)))
               maxPrice minPrice)
      end
  end.

End PredictionView.

(** ** The analysis component: what [SimpleChart] draws *)

Module AnalysisView.

Import AnalysisModule.

Record Drawing : Type := mkDrawing {
  line : list Polyline.Point;
  circles : list Polyline.Point;
  maxPrice : Q;
  minPrice : Q
}.

(** The points of the line at the indices that are multiples of 5. *)
Fixpoint every_fifth (i : Z) (l : list Polyline.Point) : list Polyline.Point :=
  match l with
  | [] => []
  | p :: rest =>
      if (i mod 5 =? 0)%Z then p :: every_fifth (i + 1)%Z rest
      else every_fifth (i + 1)%Z rest
  end.

(** [SimpleChart({ data })]: [null] for no data or an empty list. *)
Definition SimpleChart (data : option (list Bar)) : option Drawing :=
  match data with
  | None | Some [] => None
  | Some ((d0 :: rest) as data) =>
      let prices := List.map (fun d => JsNum.parseFloat (price d)) rest in
      let maxPrice := JsNum.Math_max (JsNum.parseFloat (price d0)) prices in
      let minPrice := JsNum.Math_min (JsNum.parseFloat (price d0)) prices in
      let priceRange := maxPrice - minPrice in
      let points :=
        Polyline.map_index
          (fun index point =>
             Polyline.mkPoint
               (Polyline.x_of (length data) index)
               (Polyline.y_of minPrice priceRange (price point)))
          0%Z data in
      Some (mkDrawing points (every_fifth 0 points) maxPrice minPrice)
  end.

(** The badge of the asset card: [change >= 0 ? "COMPRAR" : "VENDER"]. *)
Definition recommendation (a : AnalysisData) : string :=
  if Js.geb (ad_change a) 0 then "COMPRAR" else "VENDER".

(** "Precio Actual": [analysisData.price.toFixed(2)]. *)
Definition price_text (a : AnalysisData) : Double.text :=
  Double.toFixed2 (Double.of_Q (ad_price a)).

(** "SMA 20" and "SMA 50": [(analysisData.price * 0.98).toFixed(2)] and
    [(analysisData.price * 0.95).toFixed(2)]. *)
Definition sma20 (a : AnalysisData) : Double.text :=
  Double.toFixed2 (Double.of_Q (ad_price a) * Double.of_Q 0.98)%D.

Definition sma50 (a : AnalysisData) : Double.text :=
  Double.toFixed2 (Double.of_Q (ad_price a) * Double.of_Q 0.95)%D.

End AnalysisView.


(** * The components as event systems *)

(** ** The shell of the application *)

Module AppShell.

Record User : Type := mkUser {
  username : string;
  full_name : string
}.

(** The [useState] cells of [App]; [user] has no setter. *)
Record State : Type := mkState {
  isLoggedIn : bool;
  activeTab : string;
  user : User
}.

Definition initial : State :=
  mkState false "overview" (mkUser "demo" "Usuario Demo").

Definition handleLogin (st : State) : State :=
  mkState true (activeTab st) (user st).

Definition handleLogout (st : State) : State :=
  mkState false "overview" (user st).

Definition setActiveTab (value : string) (st : State) : State :=
  mkState (isLoggedIn st) value (user st).

(** The controls that carry a handler.  The two text inputs of the login
    form are uncontrolled and carry none. *)
Inductive Control : Type :=
| IniciarSesion
| UsarCuentaDemo
| Salir
| TabsTrigger (value : string)
| AnalizarAccion
| PrediccionesIA
| YahooFinance.

(** The values of the three [TabsTrigger]s. *)
Definition triggers : list string := ["overview"; "analysis"; "predictions"].

(** Whether a control is on the page: the login form is all there is before
    the login; afterwards the header and the triggers are, and the quick
    actions are inside the overview's [TabsContent]. *)
Definition rendered (st : State) (c : Control) : bool :=
  match c with
  | IniciarSesion | UsarCuentaDemo => negb (isLoggedIn st)
  | Salir => isLoggedIn st
  | TabsTrigger value =>
      isLoggedIn st && existsb (String.eqb value) triggers
  | AnalizarAccion | PrediccionesIA | YahooFinance =>
      isLoggedIn st && String.eqb (activeTab st) "overview"
  end.

(** A click on a control that is on the page. *)
Definition handler (c : Control) (st : State) : State :=
  match c with
  | IniciarSesion | UsarCuentaDemo => handleLogin st
  | Salir => handleLogout st
  | TabsTrigger value => setActiveTab value st
  | AnalizarAccion => setActiveTab "analysis" st
  | PrediccionesIA => setActiveTab "predictions" st
  | YahooFinance => st
  end.

Definition click (st : State) (c : Control) : State :=
  if rendered st c then handler c st else st.

Definition run (clicks : list Control) : State :=
  fold_left click clicks initial.

(** What the page shows. *)
Inductive Screen : Type :=
| LoginForm
| Resumen
| AnalysisTab
| PredictionsTab
| NoContent.

Definition view (st : State) : Screen :=
  if negb (isLoggedIn st) then LoginForm
  else if String.eqb (activeTab st) "overview" then Resumen
  else if String.eqb (activeTab st) "analysis" then AnalysisTab
  else if String.eqb (activeTab st) "predictions" then PredictionsTab
  else NoContent.

(** The name in the header. *)
Definition header_name (st : State) : string := full_name (user st).

End AppShell.

(** ** A component that loads on a timer *)

(** [PredictionModule] and [AnalysisModule] share their shape: three cells,
    an effect on [selectedSymbol] that calls the handler, a button that calls
    it unless [loading], and a handler that sets [loading] and starts a timer
    whose callback reads the table at the [selectedSymbol] of the render
    that created it.  The timers have one delay, so they fire in the order
    they were started. *)
Module Timed.

Import PredictionModule.

Section Component.

(** The object the callback stores for a symbol. *)
Variable Data : Type.
Variable fetch : Symbol -> Data.

Record Cells : Type := mkCells {
  selectedSymbol : Symbol;
  data : option Data;
  loading : bool
}.

(** The cells, and the symbols captured by the timers that are pending,
    oldest first. *)
Record World : Type := mkWorld {
  cells : Cells;
  timers : list Symbol
}.

(** The handler ([handlePredict], [handleAnalyze]) up to the timer. *)
Definition handle (w : World) : World :=
  mkWorld (mkCells (selectedSymbol (cells w)) (data (cells w)) true)
          (timers w ++ [selectedSymbol (cells w)]).

(** The timer callback, for the symbol it captured. *)
Definition callback (captured : Symbol) (c : Cells) : Cells :=
  mkCells (selectedSymbol c) (Some (fetch captured)) false.

Definition Symbol_eqb (a b : Symbol) : bool :=
  String.eqb (symbol_name a) (symbol_name b).

(** The first render and its effect. *)
Definition mount : World :=
  handle (mkWorld (mkCells AAPL None false) []).

Inductive Event : Type :=
| Select (s : Symbol)
| Click
| Timeout.

(** [Select s] is the [onChange] of the [<select>]: the state changes and
    the effect runs when [s] is another symbol.  [Click] is the button,
    disabled while [loading].  [Timeout] fires the oldest pending timer. *)
Definition step (w : World) (e : Event) : World :=
  match e with
  | Select s =>
      if Symbol_eqb s (selectedSymbol (cells w)) then w
      else handle (mkWorld (mkCells s (data (cells w)) (loading (cells w)))
                           (timers w))
  | Click => if loading (cells w) then w else handle w
  | Timeout =>
      match timers w with
      | [] => w
      | captured :: rest => mkWorld (callback captured (cells w)) rest
      end
  end.

Definition run (w : World) (events : list Event) : World :=
  fold_left step events w.

End Component.

Arguments mkCells {Data} selectedSymbol data loading.
Arguments selectedSymbol {Data} c.
Arguments data {Data} c.
Arguments loading {Data} c.
Arguments mkWorld {Data} cells timers.
Arguments cells {Data} w.
Arguments timers {Data} w.
Arguments handle {Data} w.
Arguments callback {Data} fetch captured c.
Arguments mount {Data}.
Arguments step {Data} fetch w e.
Arguments run {Data} fetch w events.

(** The object [handlePredict] stores. *)
Definition prediction (s : Symbol) : PredictionData :=
  let data := PREDICTION_DATA s in
  mkPredictionData (symbol_name s) (currentPrice data) (svm data) (lstm data)
                   (confidence data) "offline".

End Timed.

(** * An environment to run the code in *)

Module Sample.

(** Fixed-point numbers with 90 fractional bits. *)
Definition scale : Z := 2 ^ 90.

(** The sum of [n] terms of the sine series, from the term [term] of degree
    [k] on; [x2] is the square of the argument. *)
Fixpoint sine_series (n : nat) (k : Z) (term x2 : Z) : Z :=
  match n with
  | O => 0
  | S n' =>
      (term
       + sine_series n' (k + 2)
                     (- (term * x2) / (scale * ((k + 1) * (k + 2)))) x2)%Z
  end.

(** The Taylor polynomial of degree 33 of the sine, in fixed point: within
    1e-20 of the sine on the arguments [i * 0.1] and [i * 0.2] of the two
    charts, and 0 at 0. *)
Definition sin (x : Q) : Q :=
  let x := Qfloor (x * inject_Z scale) in
  inject_Z (sine_series 17 1 x (x * x / scale)) / inject_Z scale.

(** Draws in [0,1) that repeat after 100 calls. *)
Definition random (k : nat) : Q :=
  inject_Z ((37 * Z.of_nat k + 11) mod 100) / 100.

Definition env : Js.Env := Js.mkEnv sin random.

(** The label of the date [i] days before the day number [today]. *)
Definition date_label (today : Z) (i : nat) : string :=
  ApiClient.string_of_Z (today - Z.of_nat i).

End Sample.

(** * Invariants *)

Module Invariants.

(** What every click keeps: logged out means the overview tab, the active
    tab is one of the three triggers, and the user is the initial one. *)
Definition shell_invariant (st : AppShell.State) : Prop :=
  (AppShell.isLoggedIn st = false -> AppShell.activeTab st = "overview")
  /\ In (AppShell.activeTab st) AppShell.triggers
  /\ AppShell.user st = AppShell.user AppShell.initial.

(** What every event keeps: the youngest pending timer captured the
    selected symbol, and with no timer pending the spinner is off and the
    stored object is the one of the selected symbol. *)
Definition timed_invariant {Data : Type}
    (fetch : PredictionModule.Symbol -> Data) (w : Timed.World Data) : Prop :=
  List.last (Timed.timers w) (Timed.selectedSymbol (Timed.cells w))
  = Timed.selectedSymbol (Timed.cells w)
  /\ (Timed.timers w = [] ->
      Timed.loading (Timed.cells w) = false
      /\ Timed.data (Timed.cells w)
         = Some (fetch (Timed.selectedSymbol (Timed.cells w)))).

End Invariants.
(** * Properties *)

(** ** Comparison operators *)

Lemma gtb_true (x y : Q) : Js.gtb x y = true <-> y < x.
Proof.
  unfold Js.gtb. rewrite negb_true_iff.
  destruct (Qle_bool x y) eqn:E.
  - apply Qle_bool_iff in E. split; [discriminate | lra].
  - split; [intros _ | reflexivity].
    destruct (Qlt_le_dec y x) as [H | H]; [exact H |].
    apply Qle_bool_iff in H. congruence.
Qed.

Lemma gtb_false (x y : Q) : Js.gtb x y = false <-> x <= y.
Proof.
  unfold Js.gtb. rewrite negb_false_iff. apply Qle_bool_iff.
Qed.


(** ** The recommendation badge *)


Lemma recommendation_buy_iff (svm : string) (lstm currentPrice : Q) :
  PredictionModule.recommendation svm lstm currentPrice = "COMPRAR"
  <-> svm = "subida" /\ currentPrice < lstm.
Proof.
  unfold PredictionModule.recommendation.
  destruct (String.eqb svm "subida") eqn:Es; simpl.
  - apply String.eqb_eq in Es.
    destruct (Js.gtb lstm currentPrice) eqn:Eg.
    + apply gtb_true in Eg. tauto.
    + apply gtb_false in Eg. split; [discriminate |].
      intros [_ H]. lra.
  - apply String.eqb_neq in Es. split; [discriminate | tauto].
Qed.


(** ** The fusion function of the specification *)

Import SignalAggregator.

Lemma valid_true (s : Signal) (current_price : Q) :
  valid s current_price = true
  <-> (0 <= confidence s <= 1) /\ 0 < current_price.
Proof.
  unfold valid. rewrite !andb_true_iff, !Qle_bool_iff, gtb_true. tauto.
Qed.

Lemma valid_false (s : Signal) (current_price : Q) :
  valid s current_price = false
  <-> ~ (0 <= confidence s <= 1) \/ current_price <= 0.
Proof.
  rewrite <- not_true_iff_false, valid_true.
  split.
  - intros H.
    destruct (Qlt_le_dec 0 current_price) as [Hp | Hp]; [| now right].
    left. intros Hc. apply H. split; assumption.
  - intros [H | H] [Hc Hp]; [contradiction | lra].
Qed.

Lemma clamp_range (x : Q) : -1 <= clamp x <= 1.
Proof.
  unfold clamp. split.
  - apply Q.le_max_l.
  - apply Q.max_lub; [lra | apply Q.le_min_l].
Qed.

Lemma clamp_id (x : Q) : -1 <= x <= 1 -> clamp x == x.
Proof.
  intros [Hl Hu]. unfold clamp.
  rewrite (Q.min_r 1 x) by exact Hu.
  apply Q.max_r. exact Hl.
Qed.

Lemma magnitude_range (p cap : Q) : 0 < cap -> 0 <= Qmin 1 (Qabs p / cap) <= 1.
Proof.
  intros Hcap. split.
  - apply Q.min_glb; [lra |].
    apply Qle_shift_div_l; [exact Hcap |].
    rewrite Qmult_0_l. apply Qabs_nonneg.
  - apply Q.le_min_l.
Qed.

Lemma pct_zero (s : Signal) (current_price : Q) :
  forecast_price s == current_price -> pct s current_price == 0.
Proof.
  intros H. unfold pct. rewrite H. unfold Qdiv.
  assert (E : current_price - current_price == 0) by ring.
  rewrite E. apply Qmult_0_l.
Qed.

Lemma pct_neg (s : Signal) (current_price : Q) :
  0 < current_price -> forecast_price s < current_price ->
  pct s current_price < 0.
Proof.
  intros Hp Hf. unfold pct.
  apply Qlt_shift_div_r; [exact Hp | lra].
Qed.

Lemma pct_pos (s : Signal) (current_price : Q) :
  0 < current_price -> current_price < forecast_price s ->
  0 < pct s current_price.
Proof.
  intros Hp Hf. unfold pct.
  apply Qlt_shift_div_l; [exact Hp | lra].
Qed.

Lemma Qeq_bool_false (x y : Q) : ~ x == y -> Qeq_bool x y = false.
Proof.
  intros H. destruct (Qeq_bool x y) eqn:E; [| reflexivity].
  apply Qeq_bool_iff in E. contradiction.
Qed.

Lemma Qeq_bool_true (x y : Q) : x == y -> Qeq_bool x y = true.
Proof. apply Qeq_bool_iff. Qed.

Lemma sign_neg (x : Q) : x < 0 -> sign x = -1.
Proof.
  intros H. unfold sign.
  rewrite (proj2 (gtb_false x 0)) by lra.
  now rewrite (proj2 (gtb_true 0 x)).
Qed.

Lemma sign_pos (x : Q) : 0 < x -> sign x = 1.
Proof.
  intros H. unfold sign. now rewrite (proj2 (gtb_true x 0)).
Qed.

Lemma score_value_range (s : Signal) (current_price cap : Q) :
  -1 <= score_value s current_price cap <= 1.
Proof.
  unfold score_value.
  destruct (Qeq_bool (pct s current_price) 0); [lra | apply clamp_range].
Qed.

Lemma score_value_flat (s : Signal) (current_price cap : Q) :
  forecast_price s == current_price -> score_value s current_price cap == 0.
Proof.
  intros Hf. unfold score_value.
  rewrite (Qeq_bool_true _ _ (pct_zero _ _ Hf)). reflexivity.
Qed.

(** The value of a fused score, when the inputs are valid. *)
Lemma fuse_valid (s : Signal) (current_price cap : Q) :
  0 <= confidence s <= 1 -> 0 < current_price ->
  exists sc, fuse s current_price cap = inl sc
    /\ -1 <= value sc <= 1
    /\ (forecast_price s == current_price -> value sc == 0).
Proof.
  intros Hc Hp. unfold fuse.
  rewrite (proj2 (valid_true s current_price)) by (split; assumption).
  eexists. split; [reflexivity |]. split.
  - apply score_value_range.
  - apply score_value_flat.
Qed.

Lemma fuse_invalid_iff (s : Signal) (current_price cap : Q) :
  fuse s current_price cap = inr InvalidSignalError
  <-> ~ (0 <= confidence s <= 1) \/ current_price <= 0.
Proof.
  rewrite <- valid_false. unfold fuse.
  destruct (valid s current_price); split; congruence.
Qed.

(** [lra] reads a division by 2 once it is written as a product. *)
Ltac halves := unfold Qdiv in *; change (/ 2) with (1 # 2) in *.

Lemma prod_unit (c m : Q) : 0 <= c <= 1 -> 0 <= m <= 1 -> 0 <= c * m <= 1.
Proof.
  intros Hc Hm. split.
  - apply Qmult_le_0_compat; lra.
  - assert (c * m <= 1 * m) by (apply Qmult_le_compat_r; lra). lra.
Qed.

Lemma score_value_up_below (s : Signal) (current_price cap : Q) :
  0 <= confidence s <= 1 -> 0 < current_price -> 0 < cap ->
  direction s = up -> forecast_price s < current_price ->
  score_value s current_price cap
  == confidence s * Qmin 1 (Qabs (pct s current_price) / cap) / 2.
Proof.
  intros Hc Hp Hcap Hup Hf. unfold score_value.
  pose proof (magnitude_range (pct s current_price) cap Hcap) as Hm.
  set (m := Qmin 1 (Qabs (pct s current_price) / cap)) in *.
  pose proof (pct_neg s current_price Hp Hf) as Hneg.
  rewrite Qeq_bool_false by lra.
  rewrite (sign_neg _ Hneg), Hup.
  change (Qeq_bool (-1) (classifier_sign up)) with false.
  change (classifier_sign up) with 1. cbv iota.
  pose proof (prod_unit _ _ Hc Hm) as Hcm.
  assert (E : confidence s * 1 * (m / 2) == confidence s * m / 2) by field.
  rewrite <- E. apply clamp_id. rewrite E. halves. lra.
Qed.

Lemma score_value_down_above (s : Signal) (current_price cap : Q) :
  0 <= confidence s <= 1 -> 0 < current_price -> 0 < cap ->
  direction s = down -> current_price < forecast_price s ->
  score_value s current_price cap
  == - (confidence s * Qmin 1 (Qabs (pct s current_price) / cap) / 2).
Proof.
  intros Hc Hp Hcap Hdown Hf. unfold score_value.
  pose proof (magnitude_range (pct s current_price) cap Hcap) as Hm.
  set (m := Qmin 1 (Qabs (pct s current_price) / cap)) in *.
  pose proof (pct_pos s current_price Hp Hf) as Hpos.
  rewrite Qeq_bool_false by lra.
  rewrite (sign_pos _ Hpos), Hdown.
  change (Qeq_bool 1 (classifier_sign down)) with false.
  change (classifier_sign down) with (-1). cbv iota.
  pose proof (prod_unit _ _ Hc Hm) as Hcm.
  assert (E : confidence s * -1 * (m / 2) == - (confidence s * m / 2)) by field.
  rewrite <- E. apply clamp_id. rewrite E. halves. lra.
Qed.

(** With the classifier and the forecast in disagreement the magnitude is
    halved and, the confidence being at most 1, the clamp does nothing; the
    score keeps the direction of the classifier. *)
Lemma fuse_disagreement (s : Signal) (current_price cap : Q) :
  0 <= confidence s <= 1 -> 0 < current_price -> 0 < cap ->
  (direction s = up /\ forecast_price s < current_price)
  \/ (direction s = down /\ current_price < forecast_price s) ->
  exists sc, fuse s current_price cap = inl sc
    /\ Qabs (value sc)
       == confidence s * Qmin 1 (Qabs (pct s current_price) / cap) / 2
    /\ (direction s = up -> 0 <= value sc)
    /\ (direction s = down -> value sc <= 0).
Proof.
  intros Hc Hp Hcap Hd. unfold fuse.
  rewrite (proj2 (valid_true s current_price)) by (split; assumption).
  eexists. split; [reflexivity |]. cbn [value].
  pose proof (magnitude_range (pct s current_price) cap Hcap) as Hm.
  pose proof (prod_unit _ _ Hc Hm) as Hcm.
  destruct Hd as [[Hup Hf] | [Hdown Hf]].
  - pose proof (score_value_up_below s _ _ Hc Hp Hcap Hup Hf) as E.
    rewrite E. halves. split; [apply Qabs_pos; lra |].
    split; [intros _; lra | congruence].
  - pose proof (score_value_down_above s _ _ Hc Hp Hcap Hdown Hf) as E.
    rewrite E. halves. split; [rewrite Qabs_neg by lra; ring |].
    split; [congruence | intros _; lra].
Qed.

(** What the fusion function of the specification returns on the inputs
    used below: 0 for a forecast equal to the price, a positive score for an
    upward vote with a forecast below the price, a rejection for a confidence
    of 1.5 and a price of -1. *)
Lemma fuse_examples :
  fuse (mkSignal "AAPL" 0 up 190.50 0.78) 190.50 0.05
  = inl (mkScore "AAPL" 0 0)
  /\ (exists sc, fuse (mkSignal "AAPL" 0 up 185.50 0.78) 190.50 0.05 = inl sc
        /\ 0 < value sc)
  /\ fuse (Reading.signal_of
             (PredictionModule.mkPredictionData
                "AAPL" (-1) "subida" 5 1.5 "offline"))
          (-1) 0.05
     = inr InvalidSignalError.
Proof.
  split; [reflexivity |]. split; [| reflexivity].
  eexists. split; [reflexivity |]. vm_compute. reflexivity.
Qed.

Lemma fuse_batch_pointwise (cap : Q) (inputs : list (Signal * Q)) (i : nat) :
  nth_error (fuse_batch cap inputs) i
  = option_map (fun '(s, p) => fuse s p cap) (nth_error inputs i).
Proof. unfold fuse_batch. apply nth_error_map. Qed.

(** ** The offline API client *)

Lemma marketBaseData_lookup (k : string) (q : ApiClient.Quote) :
  ApiClient.marketBaseData !! k = Some q -> 0 < ApiClient.price q.
Proof.
  unfold ApiClient.marketBaseData. intros H.
  apply elem_of_list_to_map_2 in H.
  repeat (apply elem_of_cons in H as [H | H];
          [inversion H; subst; simpl; lra |]).
  apply elem_of_nil in H. contradiction.
Qed.

Lemma marketBaseData_AAPL :
  Js.get ApiClient.marketBaseData "AAPL"
  = Js.Own (ApiClient.mkQuote 190.50 3.21 1.72).
Proof. vm_compute. reflexivity. Qed.

Lemma get_cases {A : Type} (obj : gmap string A) (key : string) :
  (exists a, obj !! key = Some a /\ Js.get obj key = Js.Own a)
  \/ (obj !! key = None /\ key ∈ Js.Object_prototype
      /\ Js.get obj key = Js.Inherited)
  \/ (obj !! key = None /\ (key ∉ Js.Object_prototype)
      /\ Js.get obj key = Js.Missing).
Proof.
  unfold Js.get. destruct (obj !! key) as [a |].
  - left. exists a. split; reflexivity.
  - right. destruct (decide (key ∈ Js.Object_prototype)) as [H | H];
      [left | right]; repeat split; assumption.
Qed.

Lemma ohlc_of_positive (symbol : string) (q : ApiClient.Quote) (v : Z) :
  0 < ApiClient.price q ->
  ApiClient.ohlc_ordered
    (ApiClient.mkMarketData symbol
       (Js.VNum (ApiClient.price q)) (Js.VNum (ApiClient.change q))
       (Js.VNum (ApiClient.changePercent q)) v
       (Js.mul_lit (Js.VNum (ApiClient.price q)) 1.05)
       (Js.mul_lit (Js.VNum (ApiClient.price q)) 0.95)
       (Js.mul_lit (Js.VNum (ApiClient.price q)) 0.98))
  = true.
Proof.
  intros Hp. unfold ApiClient.ohlc_ordered. simpl.
  rewrite !andb_true_iff, !Qle_bool_iff. repeat split; lra.
Qed.

(** X1.  For every symbol that does not name a property of
    [Object.prototype] the mock market data is produced, after one draw from
    [Math.random()]; it is taken from the AAPL entry when the symbol is not
    in the table, and it is ordered [low <= open <= price <= high]. *)
Lemma generateMockMarketData_ordered
    (self : ApiClient.t) (env : Js.Env) (symbol : string) (cursor : nat) :
  symbol ∉ Js.Object_prototype ->
  exists d,
    ApiClient.generateMockMarketData self env symbol cursor = (Some d, S cursor)
    /\ ApiClient.ohlc_ordered d = true
    /\ ApiClient.md_symbol d = symbol
    /\ (ApiClient.marketBaseData !! symbol = None ->
        ApiClient.md_price d = Js.VNum 190.50).
Proof.
  intros Hproto. unfold ApiClient.generateMockMarketData, ApiClient.or_AAPL.
  destruct (get_cases ApiClient.marketBaseData symbol)
    as [(q & Hq & ->) | [(_ & Hin & _) | (Hnone & _ & ->)]].
  - simpl. eexists. split; [reflexivity |].
    split; [apply ohlc_of_positive; eapply marketBaseData_lookup; eassumption |].
    split; [reflexivity | congruence].
  - contradiction.
  - rewrite marketBaseData_AAPL. simpl. eexists. split; [reflexivity |].
    split; [| split; [reflexivity | intros _; reflexivity]].
    apply (ohlc_of_positive symbol (ApiClient.mkQuote 190.50 3.21 1.72)).
    simpl. lra.
Qed.

Lemma generateMockMarketData_ordered_witness :
  exists d,
    ApiClient.generateMockMarketData
      (ApiClient.constructor Js.VNull) (Js.mkEnv (fun _ => 0) (fun _ => 0.25))
      "XYZ" 0
    = (Some d, 1%nat)
    /\ ApiClient.ohlc_ordered d = true
    /\ ApiClient.md_symbol d = "XYZ"
    /\ (ApiClient.marketBaseData !! "XYZ" = None ->
        ApiClient.md_price d = Js.VNum 190.50).
Proof.
  apply (generateMockMarketData_ordered
           (ApiClient.constructor Js.VNull)
           (Js.mkEnv (fun _ => 0) (fun _ => 0.25)) "XYZ" 0).
  apply (bool_decide_unpack _). vm_compute. exact I.
Defined.

(** ** C9 *)

(** C9 at a symbol that names a property of [Object.prototype]: the lookup
    finds the inherited function, the default is not taken, the record
    carries [undefined] and [NaN], and the ordering does not hold. *)
Theorem generateMockMarketData_inherited_symbol
    (self : ApiClient.t) (env : Js.Env) (cursor : nat) :
  ApiClient.generateMockMarketData self env "constructor" cursor
  = (Some (ApiClient.mkMarketData "constructor"
             Js.VUndefined Js.VUndefined Js.VUndefined
             (Qfloor (Js.random env cursor * 100000000))
             Js.VNaN Js.VNaN Js.VNaN),
     S cursor)
  /\ (forall d,
        fst (ApiClient.generateMockMarketData self env "constructor" cursor)
        = Some d ->
        ApiClient.ohlc_ordered d = false
        /\ ApiClient.md_price d <> Js.VNum 190.50).
Proof.
  assert (E : Js.get ApiClient.marketBaseData "constructor" = Js.Inherited)
    by (vm_compute; reflexivity).
  unfold ApiClient.generateMockMarketData, ApiClient.or_AAPL.
  rewrite E. simpl. split; [reflexivity |].
  intros d [= <-]. split; [reflexivity | discriminate].
Qed.

(** ** C8 *)

Lemma strict_eq_admin (v : Js.value) :
  Js.strict_eq_str v "admin" = true <-> v = Js.VStr "admin".
Proof.
  destruct v as [| | b | q | | s |];
    simpl; try (split; [discriminate | intros [=]]).
  rewrite String.eqb_eq. split; [intros -> | intros [= ->]]; reflexivity.
Qed.

(** C8, as the code has it.  Called with a credentials object, whatever
    its user name and password, [login] resolves with [success = true]; the
    full name is 'Administrador' exactly when the user name is the string
    'admin' and 'Usuario Demo' otherwise; the user name returned is the one
    supplied when that is truthy and 'demo' otherwise, so 'demo' when it is
    absent.  Called with [undefined] or [null], the timer callback throws
    on [credentials.username] and the promise never settles.  No call is
    answered with [success = false]. *)
Theorem login_succeeds_on_every_credentials_object
    (self : ApiClient.t) (credentials : option ApiClient.Credentials)
    (now : Z) :
  match credentials with
  | None => ApiClient.login self credentials now = None
  | Some c =>
      exists r : ApiClient.Response ApiClient.Session,
        ApiClient.login self credentials now = Some r
        /\ ApiClient.success r = true
        /\ (ApiClient.full_name (ApiClient.user (ApiClient.data r))
            = "Administrador"
            <-> ApiClient.cred_username c = Js.VStr "admin")
        /\ (ApiClient.full_name (ApiClient.user (ApiClient.data r))
            = "Usuario Demo"
            <-> ApiClient.cred_username c <> Js.VStr "admin")
        /\ (ApiClient.cred_username c = Js.VUndefined ->
            ApiClient.username (ApiClient.user (ApiClient.data r))
            = Js.VStr "demo")
        /\ ApiClient.username (ApiClient.user (ApiClient.data r))
           = (if Js.truthy (ApiClient.cred_username c)
              then ApiClient.cred_username c else Js.VStr "demo")
  end
  /\ (forall r : ApiClient.Response ApiClient.Session,
        ApiClient.login self credentials now = Some r ->
        ApiClient.success r = true).
Proof.
  split.
  - destruct credentials as [c |]; [| reflexivity].
    eexists. split; [reflexivity |]. split; [reflexivity |]. simpl.
    pose proof (strict_eq_admin (ApiClient.cred_username c)) as Hadmin.
    destruct (Js.strict_eq_str (ApiClient.cred_username c) "admin").
    + split; [tauto |]. split.
      * split; [discriminate |]. intros Hn. exfalso.
        apply Hn, Hadmin. reflexivity.
      * split; [intros ->; reflexivity | reflexivity].
    + split;
        [split; [discriminate |]; intros H; apply Hadmin in H; discriminate |].
      split.
      * split; [| reflexivity]. intros _ H. apply Hadmin in H. discriminate.
      * split; [intros ->; reflexivity | reflexivity].
  - intros r H. destruct credentials as [c |]; [| discriminate].
    apply (inj Some) in H. subst r. reflexivity.
Qed.

(** C8 fails on the code: [login()] and [login(null)] are never answered. *)
Lemma login_without_credentials_never_settles :
  ApiClient.login (ApiClient.constructor Js.VNull) None 1700000000000 = None.
Proof. reflexivity. Qed.

(** ** C10 *)

Lemma exec_client (env : Js.Env) (w : ApiClient.World) (c : ApiClient.Call) :
  ApiClient.client (ApiClient.exec env w c) = ApiClient.client w.
Proof. destruct w, c; reflexivity. Qed.

Lemma run_client (env : Js.Env) (calls : list ApiClient.Call) (w : ApiClient.World) :
  ApiClient.client (ApiClient.run env w calls) = ApiClient.client w.
Proof.
  unfold ApiClient.run. revert w.
  induction calls as [| c calls IH]; intros w; simpl; [reflexivity |].
  rewrite IH. apply exec_client.
Qed.

Lemma reachable_client (env : Js.Env) (w : ApiClient.World) :
  ApiClient.reachable env w ->
  ApiClient.client w = ApiClient.constructor Js.VNull.
Proof.
  induction 1 as [baseUrl cursor | w c _ IH]; [reflexivity |].
  rewrite exec_client. exact IH.
Qed.

Lemma reachable_run (env : Js.Env) (calls : list ApiClient.Call) (w : ApiClient.World) :
  ApiClient.reachable env w -> ApiClient.reachable env (ApiClient.run env w calls).
Proof.
  unfold ApiClient.run. revert w.
  induction calls as [| c calls IH]; intros w Hw; simpl; [exact Hw |].
  apply IH. constructor. exact Hw.
Qed.

(** C10.  After every sequence of method calls on a new client the
    [connectionStatus] field is 'offline', [getConnectionStatus] returns
    'offline', [checkConnection] resolves to false, adding or removing a
    listener leaves the client as it is, and the client is still the one the
    constructor built: no reachable state is 'online'. *)
Theorem client_never_online
    (env : Js.Env) (baseUrl : Js.value) (cursor : nat)
    (calls : list ApiClient.Call) :
  ApiClient.connectionStatus
    (ApiClient.client
       (ApiClient.run env (ApiClient.mkWorld (ApiClient.constructor baseUrl) cursor)
                      calls))
  = "offline"
  /\ ApiClient.getConnectionStatus
       (ApiClient.client
          (ApiClient.run env
             (ApiClient.mkWorld (ApiClient.constructor baseUrl) cursor) calls))
     = "offline"
  /\ ApiClient.checkConnection
       (ApiClient.client
          (ApiClient.run env
             (ApiClient.mkWorld (ApiClient.constructor baseUrl) cursor) calls))
     = false
  /\ (forall (self : ApiClient.t) (callback : ApiClient.Callback),
        ApiClient.addConnectionListener self callback = self
        /\ ApiClient.removeConnectionListener self callback = self)
  /\ ApiClient.client
       (ApiClient.run env (ApiClient.mkWorld (ApiClient.constructor baseUrl) cursor)
                      calls)
     = ApiClient.constructor baseUrl
  /\ (forall w : ApiClient.World,
        ApiClient.reachable env w ->
        ApiClient.connectionStatus (ApiClient.client w) <> "online"
        /\ ApiClient.getConnectionStatus (ApiClient.client w) <> "online").
Proof.
  rewrite run_client. simpl.
  repeat split; try reflexivity.
  - rewrite (reachable_client env w) by assumption. discriminate.
  - discriminate.
Qed.

(** ** C2 *)

(** C2 on the portfolio of [getPortfolio]: the cash is not negative, the
    positions marked at the current prices 190.50 and 175.20 are worth 2781,
    so the equity is 12781 (12706 at the average prices), and the recorded
    [totalValue] is 12000. *)
Theorem getPortfolio_totalValue_is_not_equity
    (self : ApiClient.t) (env : Js.Env) :
  ApiClient.current_price self env "AAPL" = 190.50
  /\ ApiClient.current_price self env "GOOGL" = 175.20
  /\ 0 <= ApiClient.cash (ApiClient.data (ApiClient.getPortfolio self))
  /\ ApiClient.equity (ApiClient.current_price self env)
       (ApiClient.data (ApiClient.getPortfolio self))
     == 12781
  /\ ApiClient.equity
       (fun symbol => if String.eqb symbol "AAPL" then 185.50 else 170.20)
       (ApiClient.data (ApiClient.getPortfolio self))
     == 12706
  /\ ApiClient.totalValue (ApiClient.data (ApiClient.getPortfolio self)) == 12000
  /\ ApiClient.totalValue (ApiClient.data (ApiClient.getPortfolio self))
     < ApiClient.equity (ApiClient.current_price self env)
         (ApiClient.data (ApiClient.getPortfolio self)).
Proof.
  assert (Ea : ApiClient.current_price self env "AAPL" = 190.50)
    by (vm_compute; reflexivity).
  assert (Eg : ApiClient.current_price self env "GOOGL" = 175.20)
    by (vm_compute; reflexivity).
  unfold ApiClient.equity, ApiClient.position_value. simpl.
  rewrite Ea, Eg. repeat split; try reflexivity; try lra; vm_compute; congruence.
Qed.

(** ** Binary64 *)

(** The decimal literals of the code as doubles: mantissa and exponent. *)
Lemma literals_as_doubles :
  Double.of_Q 0.1 = SpecFloat.S754_finite false 7205759403792794 (-56)
  /\ Double.of_Q 0.2 = SpecFloat.S754_finite false 7205759403792794 (-55)
  /\ Double.of_Q 0.4 = SpecFloat.S754_finite false 7205759403792794 (-54)
  /\ Double.of_Q 0.05 = SpecFloat.S754_finite false 7205759403792794 (-57)
  /\ Double.of_Q 0.95 = SpecFloat.S754_finite false 8556839292003942 (-53)
  /\ Double.of_Q 0.98 = SpecFloat.S754_finite false 8827055269646172 (-53)
  /\ Double.of_Q 190.50 = SpecFloat.S754_finite false 6702622882922496 (-45)
  /\ Double.of_Q 175.20 = SpecFloat.S754_finite false 6164301989963366 (-45)
  /\ Double.of_Q 420.75 = SpecFloat.S754_finite false 7401912278188032 (-44)
  /\ Double.of_Q 248.90 = SpecFloat.S754_finite false 8757390212910285 (-45)
  /\ Double.of_Q 178.30 = SpecFloat.S754_finite false 6273373543438746 (-45)
  /\ Double.of_Q 67890.50 = SpecFloat.S754_finite false 4665399635345408 (-36)
  /\ Double.of_Q 3456.78 = SpecFloat.S754_finite false 7601539609327043 (-41)
  /\ Double.of_Q 195.50 = SpecFloat.S754_finite false 6878544743366656 (-45)
  /\ Double.of_Q 70000.50 = SpecFloat.S754_finite false 4810397731258368 (-36)
  /\ Double.of_Q 3300.78 = SpecFloat.S754_finite false 7258491981460931 (-41).
Proof. repeat split. Qed.

(** Equal rationals denote one double. *)
Lemma of_Q_wd (x y : Q) : x == y -> Double.of_Q x = Double.of_Q y.
Proof.
  intros H. unfold Double.of_Q. rewrite (Qred_complete x y H). reflexivity.
Qed.

(** ** The 30-day chart *)

Section Chart.

Variable env : Js.Env.
Variable basePrice : Double.t.

Lemma chart_loop_step (date_label : nat -> string) (i cursor : nat) :
AnalysisModule.chart_loop env date_label basePrice (S i) cursor
= (AnalysisModule.entry env date_label basePrice (S i)
     (Double.of_Q (Js.random env cursor))
     :: fst (AnalysisModule.chart_loop env date_label basePrice i (S cursor)),
   snd (AnalysisModule.chart_loop env date_label basePrice i (S cursor))).
Proof.
cbn [AnalysisModule.chart_loop Double.Math_random].
destruct (AnalysisModule.chart_loop env date_label basePrice i (S cursor)).
reflexivity.
Qed.

Lemma chart_loop_zero (date_label : nat -> string) (cursor : nat) :
AnalysisModule.chart_loop env date_label basePrice 0 cursor
= ([AnalysisModule.entry env date_label basePrice 0
      (Double.of_Q (Js.random env cursor))], S cursor).
Proof. reflexivity. Qed.

(** The loop runs [i + 1] times and draws once per entry. *)
Lemma chart_loop_length (date_label : nat -> string) (i cursor : nat) :
length (fst (AnalysisModule.chart_loop env date_label basePrice i cursor))
= S i
/\ snd (AnalysisModule.chart_loop env date_label basePrice i cursor)
   = (cursor + S i)%nat.
Proof.
revert cursor. induction i as [| i IH]; intros cursor.
- rewrite chart_loop_zero. simpl. split; [reflexivity | lia].
- rewrite chart_loop_step. simpl.
  destruct (IH (S cursor)) as [Hl Hc]. rewrite Hl, Hc. split; lia.
Qed.

(** The entries are the days [i], [i - 1], ..., 0, each with the date of
  its day. *)
Lemma chart_loop_days (date_label : nat -> string) (i cursor : nat) :
List.map AnalysisModule.entry_day
  (fst (AnalysisModule.chart_loop env date_label basePrice i cursor))
= List.rev (List.seq 0 (S i))
/\ List.map AnalysisModule.entry_date
     (fst (AnalysisModule.chart_loop env date_label basePrice i cursor))
   = List.map date_label (List.rev (List.seq 0 (S i))).
Proof.
revert cursor. induction i as [| i IH]; intros cursor.
- split; reflexivity.
- rewrite chart_loop_step. cbn [fst List.map].
  destruct (IH (S cursor)) as [Hd Hl]. rewrite Hd, Hl.
  rewrite (seq_S (S i) 0), rev_app_distr. split; reflexivity.
Qed.

(** The chart is a function of the draws it consumes and of the dates. *)
Lemma chart_loop_same_draws (dl1 dl2 : nat -> string) (i c1 c2 : nat) :
(forall k, (k <= i)%nat ->
           Js.random env (c1 + k)%nat == Js.random env (c2 + k)%nat) ->
(forall d, (d <= i)%nat -> dl1 d = dl2 d) ->
fst (AnalysisModule.chart_loop env dl1 basePrice i c1)
= fst (AnalysisModule.chart_loop env dl2 basePrice i c2).
Proof.
revert c1 c2. induction i as [| i IH]; intros c1 c2 H Hd.
- rewrite !chart_loop_zero. cbn [fst].
  specialize (H 0%nat (Nat.le_refl 0)). rewrite !Nat.add_0_r in H.
  unfold AnalysisModule.entry.
  rewrite (of_Q_wd _ _ H), (Hd 0%nat (Nat.le_refl 0)). reflexivity.
- rewrite !chart_loop_step. cbn [fst].
  rewrite (IH (S c1) (S c2)).
  + pose proof (H 0%nat (Nat.le_0_l _)) as H0.
    rewrite !Nat.add_0_r in H0.
    unfold AnalysisModule.entry.
    rewrite (of_Q_wd _ _ H0), (Hd (S i) (Nat.le_refl _)). reflexivity.
  + intros k Hk. specialize (H (S k) (proj1 (Nat.succ_le_mono _ _) Hk)).
    now rewrite !Nat.add_succ_r in H.
  + intros d Hle. apply Hd. lia.
Qed.

End Chart.

Lemma generateSimpleChart_some
    (env : Js.Env) (date_label : nat -> string)
    (a : AnalysisModule.AnalysisData) (cursor : nat) :
  AnalysisModule.generateSimpleChart env date_label (Some a) cursor
  = (Some (fst (AnalysisModule.chart_loop env date_label
                  (Double.of_Q (AnalysisModule.ad_price a))
                  AnalysisModule.days cursor)),
     snd (AnalysisModule.chart_loop env date_label
            (Double.of_Q (AnalysisModule.ad_price a))
            AnalysisModule.days cursor)).
Proof.
  unfold AnalysisModule.generateSimpleChart.
  destruct (AnalysisModule.chart_loop _ _ _ _ _). reflexivity.
Qed.

(** ** C5 *)

(** C5, as the code has it.  [generateSimpleChart] reads [Math.random()] once
    per entry, 31 times in a call, and in the component it stores with
    each entry the date of its day as the call sees it.  Its result is a
    function of the base price, of those 31 draws and of those dates: two
    calls whose draws and dates coincide return the same sequence, of 31
    entries for the days 30 down to 0.  The chart of the bundle stores no
    date: it is a function of the base price and of the draws. *)
Theorem generateSimpleChart_function_of_draws_and_dates
    (env : Js.Env) (date_label1 date_label2 : nat -> string)
    (a : AnalysisModule.AnalysisData) (c1 c2 : nat) :
  (forall k, (k <= 30)%nat ->
             Js.random env (c1 + k)%nat == Js.random env (c2 + k)%nat) ->
  (forall d, (d <= 30)%nat -> date_label1 d = date_label2 d) ->
  fst (AnalysisModule.generateSimpleChart env date_label1 (Some a) c1)
  = fst (AnalysisModule.generateSimpleChart env date_label2 (Some a) c2)
  /\ snd (AnalysisModule.generateSimpleChart env date_label1 (Some a) c1)
     = (c1 + 31)%nat
  /\ (exists chartData,
       fst (AnalysisModule.generateSimpleChart env date_label1 (Some a) c1)
       = Some chartData
       /\ length chartData = 31%nat
       /\ List.map AnalysisModule.entry_day chartData
          = List.rev (List.seq 0 31)
       /\ List.map AnalysisModule.entry_date chartData
          = List.map date_label1 (List.rev (List.seq 0 31)))
  /\ (forall selectedSymbol : PredictionModule.Symbol,
        fst (AnalysisModule.generateSimpleChart_bundle env selectedSymbol c1)
        = fst (AnalysisModule.generateSimpleChart_bundle env selectedSymbol c2)).
Proof.
  intros H Hd. rewrite !generateSimpleChart_some. cbn [fst snd].
  split; [| split; [| split]].
  - f_equal. apply chart_loop_same_draws; assumption.
  - apply chart_loop_length.
  - eexists. split; [reflexivity |]. split; [apply chart_loop_length |].
    apply chart_loop_days.
  - intros selectedSymbol. apply chart_loop_same_draws; [exact H |].
    reflexivity.
Qed.

Lemma sample_draws_repeat (k : nat) :
  Js.random Sample.env (0 + k) == Js.random Sample.env (100 + k).
Proof.
  cbn [Js.random Sample.env]. unfold Sample.random.
  replace ((37 * Z.of_nat (100 + k) + 11) mod 100)%Z
    with ((37 * Z.of_nat (0 + k) + 11) mod 100)%Z; [reflexivity |].
  rewrite !Nat2Z.inj_add.
  replace (37 * (Z.of_nat 100 + Z.of_nat k) + 11)%Z
    with (37 * (Z.of_nat 0 + Z.of_nat k) + 11 + 37 * 100)%Z by lia.
  rewrite Z_mod_plus_full. reflexivity.
Qed.

Lemma generateSimpleChart_function_of_draws_and_dates_witness :
  fst (AnalysisModule.generateSimpleChart
         Sample.env (Sample.date_label 20000)
         (Some (AnalysisModule.handleAnalyze PredictionModule.AAPL)) 0)
  = fst (AnalysisModule.generateSimpleChart
           Sample.env (Sample.date_label 20000)
           (Some (AnalysisModule.handleAnalyze PredictionModule.AAPL)) 100)
  /\ snd (AnalysisModule.generateSimpleChart
            Sample.env (Sample.date_label 20000)
            (Some (AnalysisModule.handleAnalyze PredictionModule.AAPL)) 0)
     = (0 + 31)%nat
  /\ (exists chartData,
       fst (AnalysisModule.generateSimpleChart
              Sample.env (Sample.date_label 20000)
              (Some (AnalysisModule.handleAnalyze PredictionModule.AAPL)) 0)
       = Some chartData
       /\ length chartData = 31%nat
       /\ List.map AnalysisModule.entry_day chartData
          = List.rev (List.seq 0 31)
       /\ List.map AnalysisModule.entry_date chartData
          = List.map (Sample.date_label 20000) (List.rev (List.seq 0 31)))
  /\ (forall selectedSymbol : PredictionModule.Symbol,
        fst (AnalysisModule.generateSimpleChart_bundle
               Sample.env selectedSymbol 0)
        = fst (AnalysisModule.generateSimpleChart_bundle
                 Sample.env selectedSymbol 100)).
Proof.
  apply (generateSimpleChart_function_of_draws_and_dates
           Sample.env (Sample.date_label 20000) (Sample.date_label 20000)
           (AnalysisModule.handleAnalyze PredictionModule.AAPL) 0 100).
  - intros k _. apply sample_draws_repeat.
  - intros d _. reflexivity.
Defined.

(** C5 fails on the code.  In an environment with draws in [0,1) and the
    sine of [Sample.sin], two successive calls for AAPL on one day return
    different sequences (the first prices are 190.36 and 192.15), in the
    component and in the bundle; and a call with the same draws on the next
    day returns the same prices under other dates. *)
Lemma generateSimpleChart_two_calls_differ :
  exists first second next_day : list AnalysisModule.Entry,
    fst (AnalysisModule.generateSimpleChart
           Sample.env (Sample.date_label 20000)
           (Some (AnalysisModule.handleAnalyze PredictionModule.AAPL)) 0)
    = Some first
    /\ fst (AnalysisModule.generateSimpleChart
              Sample.env (Sample.date_label 20000)
              (Some (AnalysisModule.handleAnalyze PredictionModule.AAPL)) 31)
       = Some second
    /\ fst (AnalysisModule.generateSimpleChart
              Sample.env (Sample.date_label 20001)
              (Some (AnalysisModule.handleAnalyze PredictionModule.AAPL)) 0)
       = Some next_day
    /\ List.map AnalysisModule.entry_price (firstn 1 first)
       = [Double.Digits (Js.mkFixed2 false 19036)]
    /\ List.map AnalysisModule.entry_price (firstn 1 second)
       = [Double.Digits (Js.mkFixed2 false 19215)]
    /\ first <> second
    /\ List.map AnalysisModule.entry_price first
       = List.map AnalysisModule.entry_price next_day
    /\ first <> next_day
    /\ fst (AnalysisModule.generateSimpleChart_bundle
              Sample.env PredictionModule.AAPL 0)
       <> fst (AnalysisModule.generateSimpleChart_bundle
                 Sample.env PredictionModule.AAPL 31)
    /\ (forall k, 0 <= Js.random Sample.env k < 1).
Proof.
  eexists. eexists. eexists.
  split; [vm_compute; reflexivity |].
  split; [vm_compute; reflexivity |].
  split; [vm_compute; reflexivity |].
  split; [vm_compute; reflexivity |].
  split; [vm_compute; reflexivity |].
  split; [intros H; apply (f_equal (fun l => List.map AnalysisModule.entry_price
                                               (firstn 1 l))) in H;
          vm_compute in H; discriminate H |].
  split; [vm_compute; reflexivity |].
  split; [intros H; apply (f_equal (fun l => List.map AnalysisModule.entry_date
                                               (firstn 1 l))) in H;
          vm_compute in H; discriminate H |].
  split; [intros H; apply (f_equal (fun l => List.map AnalysisModule.entry_price
                                               (firstn 1 l))) in H;
          vm_compute in H; discriminate H |].
  intros k. cbn [Js.random Sample.env]. unfold Sample.random.
  pose proof (Z.mod_pos_bound (37 * Z.of_nat k + 11) 100 eq_refl) as [H0 H1].
  unfold Qdiv. change (/ 100) with (1 # 100).
  assert (Ha : 0 <= inject_Z ((37 * Z.of_nat k + 11) mod 100))
    by (change 0 with (inject_Z 0); rewrite <- Zle_Qle; exact H0).
  assert (Hb : inject_Z ((37 * Z.of_nat k + 11) mod 100) < 100)
    by (change 100 with (inject_Z 100); rewrite <- Zlt_Qlt; exact H1).
  split; lra.
Qed.

(** ** Maximum drawdown *)

Import PerformanceAnalyzer.

Lemma running_peak_positive (peak e : Q) : 0 < peak -> 0 < Qmax peak e.
Proof.
  intros H. pose proof (Q.le_max_l peak e). lra.
Qed.

Lemma drawdown_range (peak e : Q) :
  0 < peak -> 0 <= e -> 0 <= (Qmax peak e - e) / Qmax peak e <= 1.
Proof.
  intros Hp He.
  pose proof (running_peak_positive peak e Hp) as Hm.
  pose proof (Q.le_max_r peak e) as Hr.
  split.
  - apply Qle_shift_div_l; [exact Hm | lra].
  - apply Qle_shift_div_r; [exact Hm | lra].
Qed.

Lemma drawdown_zero (peak e : Q) :
  0 < peak -> ((Qmax peak e - e) / Qmax peak e == 0 <-> peak <= e).
Proof.
  intros Hp.
  pose proof (running_peak_positive peak e Hp) as Hm.
  split.
  - intros H.
    assert (Hz : Qmax peak e - e == 0).
    { rewrite <- (Qmult_div_r (Qmax peak e - e) (Qmax peak e)) by lra.
      rewrite H. ring. }
    pose proof (Q.le_max_l peak e). lra.
  - intros Hle. rewrite (Q.max_r peak e Hle).
    unfold Qdiv. assert (E : e - e == 0) by ring. rewrite E. ring.
Qed.

Lemma drawdowns_range (equity : list Q) (peak : Q) :
  0 < peak -> Forall (fun e => 0 <= e) equity ->
  Forall (fun d => 0 <= d <= 1) (drawdowns peak equity).
Proof.
  revert peak. induction equity as [| e rest IH]; intros peak Hp Hall; simpl.
  - constructor.
  - inversion Hall as [| ? ? He Hrest]; subst. constructor.
    + apply drawdown_range; assumption.
    + apply IH; [apply running_peak_positive; exact Hp | exact Hrest].
Qed.

Lemma fold_max_range (l : list Q) :
  Forall (fun d => 0 <= d <= 1) l -> 0 <= fold_right Qmax 0 l <= 1.
Proof.
  induction 1 as [| d l [Hd0 Hd1] _ [IH0 IH1]]; simpl; [lra |].
  split.
  - pose proof (Q.le_max_l d (fold_right Qmax 0 l)). lra.
  - apply Q.max_lub; assumption.
Qed.

Lemma fold_max_zero (l : list Q) :
  Forall (fun d => 0 <= d <= 1) l ->
  (fold_right Qmax 0 l == 0 <-> Forall (fun d => d == 0) l).
Proof.
  induction 1 as [| d l [Hd0 Hd1] Hl IH]; simpl.
  - split; [constructor | reflexivity].
  - pose proof (fold_max_range l Hl) as [Hf0 _].
    pose proof (Q.le_max_l d (fold_right Qmax 0 l)) as Hml.
    pose proof (Q.le_max_r d (fold_right Qmax 0 l)) as Hmr.
    split.
    + intros H. constructor; [lra | apply IH; lra].
    + intros H. inversion H as [| ? ? Hd Hrest]; subst.
      apply IH in Hrest.
      apply Qle_antisym; [apply Q.max_lub; lra | lra].
Qed.

Lemma non_decreasing_head (x y : Q) (l : list Q) :
  x == y -> non_decreasing (x :: l) -> non_decreasing (y :: l).
Proof.
  intros E. destruct l as [| z l]; simpl; [trivial |].
  intros [H1 H2]. split; [lra | exact H2].
Qed.

Lemma drawdowns_zero (equity : list Q) (peak : Q) :
  0 < peak ->
  (Forall (fun d => d == 0) (drawdowns peak equity)
   <-> non_decreasing (peak :: equity)).
Proof.
  revert peak. induction equity as [| e rest IH]; intros peak Hp.
  - simpl. split; [trivial | constructor].
  - cbn [drawdowns].
    change (non_decreasing (peak :: e :: rest))
      with (peak <= e /\ non_decreasing (e :: rest)).
    pose proof (running_peak_positive peak e Hp) as Hm.
    split.
    + intros H. inversion H as [| ? ? Hd Hrest]; subst.
      apply (drawdown_zero peak e Hp) in Hd. split; [exact Hd |].
      apply (non_decreasing_head (Qmax peak e)); [apply Q.max_r; exact Hd |].
      apply IH; assumption.
    + intros [Hle Hnd]. constructor.
      * apply drawdown_zero; assumption.
      * apply IH; [exact Hm |].
        apply (non_decreasing_head e); [symmetry; apply Q.max_r; exact Hle |].
        exact Hnd.
Qed.

(** ** C6 *)

(** C6.  For every non-empty equity curve, with a positive first value and no
    negative value, the maximum drawdown lies in [0,1], and it is 0 exactly
    when the curve is non-decreasing. *)
Theorem max_drawdown_range_and_zero (e0 : Q) (rest : list Q) :
  0 < e0 -> Forall (fun e => 0 <= e) rest ->
  0 <= max_drawdown (e0 :: rest) <= 1
  /\ (max_drawdown (e0 :: rest) == 0 <-> non_decreasing (e0 :: rest)).
Proof.
  intros H0 Hrest.
  assert (Hall : Forall (fun e => 0 <= e) (e0 :: rest))
    by (constructor; [lra | exact Hrest]).
  pose proof (drawdowns_range (e0 :: rest) e0 H0 Hall) as Hr.
  unfold max_drawdown. split; [apply fold_max_range; exact Hr |].
  rewrite (fold_max_zero _ Hr), (drawdowns_zero (e0 :: rest) e0 H0).
  change (non_decreasing (e0 :: e0 :: rest))
    with (e0 <= e0 /\ non_decreasing (e0 :: rest)).
  split; [tauto | intros H; split; [lra | exact H]].
Qed.

Lemma max_drawdown_range_and_zero_witness :
  (0 <= max_drawdown [100; 120; 90; 130; 65] <= 1
   /\ (max_drawdown [100; 120; 90; 130; 65] == 0
       <-> non_decreasing [100; 120; 90; 130; 65]))
  /\ max_drawdown [100; 120; 90; 130; 65] == 1 # 2.
Proof.
  split; [| vm_compute; reflexivity].
  apply (max_drawdown_range_and_zero 100 [120; 90; 130; 65]); [lra |].
  repeat constructor; lra.
Defined.

(** ** The backtest on a calm price history *)

Import StrategyPolicy BacktestEngine Calm.

(** [lra] reads a commission once the division is written as a product. *)
Ltac bps := unfold Qdiv in *; change (/ 10000) with (1 # 10000) in *.

Lemma Qle_bool_false (x y : Q) : y < x -> Qle_bool x y = false.
Proof.
  intros H. destruct (Qle_bool x y) eqn:E; [| reflexivity].
  apply Qle_bool_iff in E. lra.
Qed.

Lemma valid_config_true (config : StrategyConfig) :
  valid_config config = true ->
  0 < entry_threshold config /\ 0 < stop_loss_pct config
  /\ 0 < take_profit_pct config
  /\ 0 < position_fraction config <= 1 /\ 0 <= commission_bps config.
Proof.
  unfold valid_config.
  rewrite !andb_true_iff, !gtb_true, !Qle_bool_iff. tauto.
Qed.

Lemma is_flat_true (p : Position) : is_flat p = true <-> quantity p == 0.
Proof. unfold is_flat. apply Qeq_bool_iff. Qed.

Lemma is_flat_false (p : Position) : is_flat p = false <-> ~ quantity p == 0.
Proof.
  rewrite <- is_flat_true. destruct (is_flat p); split; congruence.
Qed.

Lemma fuse_ok (s : Signal) (current_price cap : Q) :
  0 <= SignalAggregator.confidence s <= 1 -> 0 < current_price ->
  fuse s current_price cap
  = inl (mkScore (asset s) (timestamp s) (score_value s current_price cap)).
Proof.
  intros Hc Hp. unfold fuse.
  now rewrite (proj2 (valid_true s current_price)) by (split; assumption).
Qed.

(** The policy alone orders the two runs: the higher threshold never gets
    ahead in trades, and it is one behind while it is long and the lower
    threshold is flat. *)
Lemma signal_transition_order
    (thrC thrA : Q) (v : option Q) (sC sA : AssetState) (nC nA : nat) :
  0 < thrA -> thrA <= thrC ->
  (nC + lag sC sA <= nA)%nat ->
  (snd (signal_transition thrC v sC nC)
   + lag (fst (signal_transition thrC v sC nC))
         (fst (signal_transition thrA v sA nA))
   <= snd (signal_transition thrA v sA nA))%nat.
Proof.
  intros HA HCA HK. destruct v as [v |]; [| exact HK].
  unfold signal_transition.
  destruct sC, sA; simpl in HK |- *;
    repeat match goal with
    | |- context [Qle_bool ?a ?b] =>
        let E := fresh "E" in destruct (Qle_bool a b) eqn:E
    | |- context [Js.gtb ?c ?d] =>
        let E := fresh "E" in destruct (Js.gtb c d) eqn:E
    end;
    cbn [andb fst snd lag];
    try lia;
    repeat match goal with
    | H : Qle_bool _ _ = true |- _ => apply Qle_bool_iff in H
    | H : Qle_bool _ _ = false |- _ =>
        apply not_true_iff_false in H; rewrite Qle_bool_iff in H
    | H : Js.gtb _ _ = true |- _ => apply gtb_true in H
    | H : Js.gtb _ _ = false |- _ => apply gtb_false in H
    end;
    try (exfalso; pose proof (Qabs_nonneg v);
         try rewrite (Qabs_pos v) in * by lra; lra).
Qed.

Section CalmRun.

Variable config : StrategyConfig.
Variable cap : Q.
Variable signals : gmap Z Signal.
Hypothesis Hconfig : valid_config config = true.
Hypothesis Hfractional : fractional_shares config = true.
Hypothesis Hbps : commission_bps config < 10000.
Hypothesis Hsignals : signals_valid signals.

Lemma state_of_flat (r : Run) :
  quantity (position (portfolio r)) == 0 -> state_of r = FLAT.
Proof.
  intros H. unfold state_of, is_long.
  now rewrite (proj2 (is_flat_true _) H).
Qed.

Lemma state_of_long (r : Run) :
  0 < quantity (position (portfolio r)) -> state_of r = LONG.
Proof.
  intros H. unfold state_of, is_long.
  rewrite (proj2 (is_flat_false _)); [reflexivity | lra].
Qed.

Lemma sound_mark (r : Run) (bar : PriceBar) (rest : list PriceBar) :
  sound config r rest -> sound config (mark r bar) rest.
Proof. intros H. exact H. Qed.

Lemma sound_tail (r : Run) (bar : PriceBar) (rest : list PriceBar) :
  sound config r (bar :: rest) -> sound config r rest.
Proof.
  intros (Hq & Hc & Hf & Hl). repeat split; try assumption.
  intros Hpos. specialize (Hl Hpos). now inversion Hl.
Qed.

(** Step 1 does nothing on a bar that leaves the open position untouched. *)
Lemma protective_exit_untouched (r : Run) (bar : PriceBar) (rest : list PriceBar) :
  sound config r (bar :: rest) -> protective_exit config r bar = r.
Proof.
  intros (Hq & _ & _ & Hl). unfold protective_exit, is_long.
  destruct (is_flat (position (portfolio r))) eqn:Ef; [reflexivity |].
  apply is_flat_false in Ef. cbn [negb].
  assert (Hpos : 0 < quantity (position (portfolio r))).
  { destruct (Qlt_le_dec 0 (quantity (position (portfolio r)))) as [H | H];
      [exact H |].
    exfalso. apply Ef. lra. }
  specialize (Hl Hpos). inversion Hl as [| ? ? [Hlow Hhigh] _]; subst.
  rewrite (Qle_bool_false _ _ Hlow), (Qle_bool_false _ _ Hhigh). reflexivity.
Qed.

Lemma unit_cost_positive (price : Q) :
  0 < price -> 0 < price * (1 + commission_bps config / 10000).
Proof.
  intros Hp. destruct (valid_config_true config Hconfig) as (_ & _ & _ & _ & Hb).
  apply Qmult_lt_0_compat; [exact Hp |]. bps. lra.
Qed.

Lemma entry_size_positive (pf : Portfolio) (price : Q) :
  0 < cash pf -> 0 < price -> 0 < entry_size pf config price.
Proof.
  intros Hc Hp. unfold entry_size. rewrite Hfractional.
  destruct (valid_config_true config Hconfig) as (_ & _ & _ & [Hf _] & _).
  apply Qlt_shift_div_l; [exact Hp |]. rewrite Qmult_0_l.
  apply Qmult_lt_0_compat; assumption.
Qed.

(** A sized entry from a flat run that has cash opens a position. *)
Lemma open_position_sound
    (r : Run) (timestamp : Z) (price size : Q) (rest : list PriceBar) :
  0 < cash (portfolio r) -> 0 < price -> 0 < size ->
  Forall (untouched config price) rest ->
  sound config (open_position config r timestamp price size) rest
  /\ state_of (open_position config r timestamp price size) = LONG
  /\ trade_log (open_position config r timestamp price size) = trade_log r.
Proof.
  intros Hc Hp Hs Hrest. unfold open_position. rewrite Hfractional.
  pose proof (unit_cost_positive price Hp) as Hu.
  set (u := price * (1 + commission_bps config / 10000)) in *.
  set (q := Qmin size (cash (portfolio r) / u)).
  assert (Hafford : 0 < cash (portfolio r) / u).
  { apply Qlt_shift_div_l; [exact Hu | lra]. }
  assert (Hq : 0 < q) by (apply Q.min_glb_lt; assumption).
  assert (Hcost : q * u <= cash (portfolio r)).
  { assert (H1 : q * u <= cash (portfolio r) / u * u)
      by (apply Qmult_le_compat_r; [apply Q.le_min_r | lra]).
    assert (H2 : cash (portfolio r) / u * u == cash (portfolio r))
      by (field; lra).
    lra. }
  rewrite (proj2 (gtb_true q 0) Hq).
  split; [| split; [apply state_of_long; exact Hq | reflexivity]].
  unfold sound. cbn [portfolio position quantity cash avg_entry_price].
  split; [lra |]. split; [| split; [lra | intros _; exact Hrest]].
  unfold fee.
  assert (E : cash (portfolio r) - q * price
              - q * price * commission_bps config / 10000
              == cash (portfolio r) - q * u) by (unfold u; field).
  rewrite E. lra.
Qed.

(** Closing an open position at a positive price leaves a flat run with
    cash and one more trade. *)
Lemma close_position_sound
    (r : Run) (timestamp : Z) (price : Q) (rest : list PriceBar) :
  0 < quantity (position (portfolio r)) -> 0 <= cash (portfolio r) ->
  0 < price ->
  sound config (close_position config r timestamp price) rest
  /\ state_of (close_position config r timestamp price) = FLAT
  /\ length (trade_log (close_position config r timestamp price))
     = S (length (trade_log r)).
Proof.
  intros Hq Hc Hp.
  destruct (valid_config_true config Hconfig) as (_ & _ & _ & _ & Hb).
  split; [| split].
  - unfold sound, close_position.
    cbn [portfolio position quantity cash avg_entry_price].
    assert (Hn : 0 < quantity (position (portfolio r)) * price)
      by (apply Qmult_lt_0_compat; assumption).
    set (n := quantity (position (portfolio r)) * price) in *.
    assert (Hnet : 0 < n - fee config n).
    { unfold fee.
      assert (E : n - n * commission_bps config / 10000
                  == n * (1 - commission_bps config / 10000)) by field.
      rewrite E. apply Qmult_lt_0_compat; [exact Hn |]. bps. lra. }
    repeat split; intros; clearbody n; lra.
  - apply state_of_flat. reflexivity.
  - unfold close_position. cbn [trade_log].
    rewrite length_app. simpl. lia.
Qed.

(** One step on a calm history: the run goes on, it stays sound, and its
    state and number of trades move as the policy alone says. *)
Lemma step_calm (r : Run) (bar : PriceBar) (rest : list PriceBar) :
  sound config r (bar :: rest) -> 0 < close bar ->
  Forall (untouched config (close bar)) rest ->
  exists r',
    step config cap signals r bar = inl r'
    /\ sound config r' rest
    /\ (state_of r', length (trade_log r'))
       = signal_transition (entry_threshold config)
           (option_map (fun s => score_value s (close bar) cap)
                       (signals !! bar_timestamp bar))
           (state_of r) (length (trade_log r)).
Proof.
  intros Hsound Hclose Hfuture. unfold step.
  rewrite (protective_exit_untouched r bar rest Hsound).
  pose proof (sound_tail r bar rest Hsound) as Htail.
  destruct Hsound as (Hq & Hc & Hflat & _).
  destruct (signals !! bar_timestamp bar) as [s |] eqn:Es; cbn [option_map].
  - rewrite (fuse_ok s (close bar) cap (Hsignals _ _ Es) Hclose).
    unfold decide. cbn [value].
    set (v := score_value s (close bar) cap).
    destruct (is_flat (position (portfolio r))) eqn:Ef.
    + apply is_flat_true in Ef. rewrite (state_of_flat r Ef).
      cbn [signal_transition].
      destruct (Qle_bool (entry_threshold config) (Qabs v) && Js.gtb v 0).
      * cbn [apply_action].
        destruct (open_position_sound r (bar_timestamp bar) (close bar)
                    (entry_size (portfolio r) config (close bar)) rest)
          as (Hs' & Hst' & Hlog'); try assumption.
        { apply Hflat. exact Ef. }
        { apply entry_size_positive; [apply Hflat; exact Ef | exact Hclose]. }
        eexists. split; [reflexivity |]. split; [apply sound_mark; exact Hs' |].
        change (state_of (mark ?x bar)) with (state_of x).
        change (trade_log (mark ?x bar)) with (trade_log x).
        now rewrite Hst', Hlog'.
      * eexists. split; [reflexivity |]. split; [exact Htail |].
        cbn [apply_action].
        change (state_of (mark r bar)) with (state_of r).
        now rewrite (state_of_flat r Ef).
    + apply is_flat_false in Ef.
      assert (Hpos : 0 < quantity (position (portfolio r))).
      { destruct (Qlt_le_dec 0 (quantity (position (portfolio r)))) as [H | H];
          [exact H |].
        exfalso. apply Ef. lra. }
      rewrite (state_of_long r Hpos). cbn [signal_transition].
      destruct (Js.gtb (- entry_threshold config) v).
      * cbn [apply_action].
        destruct (close_position_sound r (bar_timestamp bar) (close bar) rest
                    Hpos Hc Hclose) as (Hs' & Hst' & Hlog').
        eexists. split; [reflexivity |]. split; [apply sound_mark; exact Hs' |].
        change (state_of (mark ?x bar)) with (state_of x).
        change (trade_log (mark ?x bar)) with (trade_log x).
        now rewrite Hst', Hlog'.
      * eexists. split; [reflexivity |]. split; [exact Htail |].
        cbn [apply_action].
        change (state_of (mark r bar)) with (state_of r).
        now rewrite (state_of_long r Hpos).
  - eexists. split; [reflexivity |]. split; [exact Htail |]. reflexivity.
Qed.

End CalmRun.

(** The two runs in step: the higher threshold never closes more trades. *)
Lemma steps_order
    (cfgC cfgA : StrategyConfig) (cap : Q) (signals : gmap Z Signal) :
  valid_config cfgC = true -> valid_config cfgA = true ->
  fractional_shares cfgC = true -> fractional_shares cfgA = true ->
  commission_bps cfgC < 10000 -> commission_bps cfgA < 10000 ->
  entry_threshold cfgA <= entry_threshold cfgC ->
  signals_valid signals ->
  forall (bars : list PriceBar) (rC rA : Run),
    sound cfgC rC bars -> sound cfgA rA bars ->
    priced bars -> calm cfgC bars -> calm cfgA bars ->
    (length (trade_log rC) + lag (state_of rC) (state_of rA)
     <= length (trade_log rA))%nat ->
    exists rC' rA',
      steps cfgC cap signals rC bars = inl rC'
      /\ steps cfgA cap signals rA bars = inl rA'
      /\ (length (trade_log rC') <= length (trade_log rA'))%nat.
Proof.
  intros HvC HvA HfC HfA HbC HbA Hthr Hsig.
  destruct (valid_config_true cfgA HvA) as (HthrA & _).
  induction bars as [| bar rest IH]; intros rC rA HsC HsA Hpr HcC HcA HK.
  - exists rC, rA. repeat split. lia.
  - inversion Hpr as [| ? ? Hclose Hpr']; subst.
    destruct HcC as [HfutC HcC]. destruct HcA as [HfutA HcA].
    destruct (step_calm cfgC cap signals HvC HfC HbC Hsig rC bar rest
                HsC Hclose HfutC) as (rC1 & EC & HsC1 & HtC).
    destruct (step_calm cfgA cap signals HvA HfA HbA Hsig rA bar rest
                HsA Hclose HfutA) as (rA1 & EA & HsA1 & HtA).
    cbn [steps]. rewrite EC, EA.
    apply IH; try assumption.
    pose proof (signal_transition_order
                  (entry_threshold cfgC) (entry_threshold cfgA)
                  (option_map (fun s => score_value s (close bar) cap)
                              (signals !! bar_timestamp bar))
                  (state_of rC) (state_of rA)
                  (length (trade_log rC)) (length (trade_log rA))
                  HthrA Hthr HK) as Hnext.
    rewrite <- HtC, <- HtA in Hnext. exact Hnext.
Qed.

(** ** C7 *)

(** C7, as the engine of the specification has it.  On a price history where
    no stop-loss and no take-profit of either configuration can trigger, with
    fractional shares, positive capital and closes, valid signals and a
    commission below 100%, the run with the higher entry threshold (the
    conservative profile) closes at most as many trades as the run with the
    lower one (the aggressive profile). *)
Theorem higher_threshold_trades_no_more_on_calm_history
    (cfgC cfgA : StrategyConfig) (cap : Q) (asset : string)
    (initial_capital : Q) (signals : gmap Z Signal) (bars : list PriceBar) :
  valid_config cfgC = true -> valid_config cfgA = true ->
  fractional_shares cfgC = true -> fractional_shares cfgA = true ->
  commission_bps cfgC < 10000 -> commission_bps cfgA < 10000 ->
  entry_threshold cfgA <= entry_threshold cfgC ->
  0 < initial_capital -> bars <> [] -> priced bars ->
  signals_valid signals ->
  calm cfgC bars -> calm cfgA bars ->
  exists nC nA : nat,
    trade_count (run cfgC cap asset initial_capital signals bars) = Some nC
    /\ trade_count (run cfgA cap asset initial_capital signals bars) = Some nA
    /\ (nC <= nA)%nat.
Proof.
  intros HvC HvA HfC HfA HbC HbA Hthr Hcap Hne Hpr Hsig HcC HcA.
  assert (Hstart : forall cfg, sound cfg (start asset initial_capital) bars).
  { intros cfg. unfold sound, start.
    cbn [portfolio position quantity cash avg_entry_price].
    repeat split; intros; lra. }
  destruct (steps_order cfgC cfgA cap signals HvC HvA HfC HfA HbC HbA Hthr Hsig
              bars (start asset initial_capital) (start asset initial_capital)
              (Hstart cfgC) (Hstart cfgA) Hpr HcC HcA)
    as (rC & rA & EC & EA & Hle).
  { rewrite (state_of_flat (start asset initial_capital)) by reflexivity.
    simpl. lia. }
  unfold run. rewrite HvC, HvA.
  destruct bars as [| bar rest]; [contradiction |].
  rewrite EC, EA. exists (length (trade_log rC)), (length (trade_log rA)).
  repeat split. exact Hle.
Qed.

Lemma mixed_signals_valid : signals_valid Scenario.mixed_signals.
Proof.
  intros t s H. unfold Scenario.mixed_signals in H.
  apply elem_of_list_to_map_2 in H.
  repeat (apply elem_of_cons in H as [H | H];
          [inversion H; subst; simpl; lra |]).
  apply elem_of_nil in H. contradiction.
Defined.

Lemma quiet_bars_calm (p : Profile) :
  calm (default_config p 10 true) Scenario.quiet_bars.
Proof.
  destruct p; simpl; repeat split;
    repeat constructor; unfold untouched; simpl; lra.
Defined.

Lemma higher_threshold_trades_no_more_on_calm_history_witness :
  (exists nC nA : nat,
     trade_count (run (default_config conservative 10 true) 0.05 "AAPL" 10000
                      Scenario.mixed_signals Scenario.quiet_bars) = Some nC
     /\ trade_count (run (default_config aggressive 10 true) 0.05 "AAPL" 10000
                         Scenario.mixed_signals Scenario.quiet_bars) = Some nA
     /\ (nC <= nA)%nat)
  /\ trade_count (run (default_config conservative 10 true) 0.05 "AAPL" 10000
                      Scenario.mixed_signals Scenario.quiet_bars) = Some 1%nat
  /\ trade_count (run (default_config aggressive 10 true) 0.05 "AAPL" 10000
                      Scenario.mixed_signals Scenario.quiet_bars) = Some 2%nat.
Proof.
  split; [| split; vm_compute; reflexivity].
  apply (higher_threshold_trades_no_more_on_calm_history
           (default_config conservative 10 true)
           (default_config aggressive 10 true)
           0.05 "AAPL" 10000 Scenario.mixed_signals Scenario.quiet_bars);
    try reflexivity; try (simpl; lra).
  - discriminate.
  - repeat constructor; simpl; lra.
  - exact mixed_signals_valid.
  - exact (quiet_bars_calm conservative).
  - exact (quiet_bars_calm aggressive).
Defined.

(** C7 fails on the engine of the specification: on four bars that dip to 96
    and close at 100, with a strong buy signal at every bar, the conservative
    profile is stopped out at 97 three times and re-enters each time, while
    the aggressive profile, whose stop is at 92, holds its position: 3 trades
    against 0. *)
Lemma conservative_stopped_out_trades_more :
  trade_count (run (default_config conservative 10 true) 0.05 "AAPL" 10000
                   Scenario.buy_signals Scenario.dipping_bars) = Some 3%nat
  /\ trade_count (run (default_config aggressive 10 true) 0.05 "AAPL" 10000
                      Scenario.buy_signals Scenario.dipping_bars) = Some 0%nat.
Proof. split; vm_compute; reflexivity. Qed.

(** * Further properties of the code *)

(** ** Rounding to two decimals and reading back *)

Lemma gtb_wd (x x' y y' : Q) : x == x' -> y == y' -> Js.gtb x y = Js.gtb x' y'.
Proof.
  intros Hx Hy. destruct (Js.gtb x' y') eqn:E.
  - apply gtb_true in E. apply gtb_true. lra.
  - apply gtb_false in E. apply gtb_false. lra.
Qed.

Lemma toFixed2_wd (x y : Q) : x == y -> Js.toFixed2 x = Js.toFixed2 y.
Proof.
  intros H. unfold Js.toFixed2. f_equal.
  - apply gtb_wd; [reflexivity | exact H].
  - apply Qfloor_comp. rewrite H. reflexivity.
Qed.

(** ** The prediction card *)


Lemma div_nonzero (a b : Q) : ~ b == 0 -> JsNum.div a b = JsNum.Fin (a / b).
Proof.
  intros H. unfold JsNum.div. now rewrite (Qeq_bool_false b 0 H).
Qed.

Lemma div_zero_zero (a b : Q) : a == 0 -> b == 0 -> JsNum.div a b = JsNum.NaN.
Proof.
  intros Ha Hb. unfold JsNum.div.
  now rewrite (Qeq_bool_true b 0 Hb), (Qeq_bool_true a 0 Ha).
Qed.

(** X3.  The expected change on the card.  On any prediction '+' is
    written exactly when the forecast is above the current price, and a
    COMPRAR badge always comes with '+' and green.  For the prediction that
    is stored for a symbol, whichever of the seven, the number printed is a
    two-decimal number, not 0.00, with a minus sign exactly when no '+' is
    written and exactly when the badge is VENDER; the seven numbers are
    2.62, -2.85, 2.38, -3.21, 3.93, 3.11 and -4.51. *)
Theorem expected_change_of_stored_prediction (s : PredictionModule.Symbol) :
  (forall p : PredictionModule.PredictionData,
     PredictionView.change_sign p = "+"
     <-> PredictionModule.pd_currentPrice p < PredictionModule.pd_lstm p)
  /\ (forall p : PredictionModule.PredictionData,
        PredictionModule.badge p = "COMPRAR" ->
        PredictionView.change_sign p = "+"
        /\ PredictionView.change_class p = "text-green-600")
  /\ (exists f,
        PredictionView.change_percent (Timed.prediction s) = Double.Digits f
        /\ (0 < Js.hundredths f)%Z
        /\ (Js.negative f = false
            <-> PredictionView.change_sign (Timed.prediction s) = "+")
        /\ (Js.negative f = true
            <-> PredictionModule.badge (Timed.prediction s) = "VENDER"))
  /\ List.map (fun s => PredictionView.change_percent (Timed.prediction s))
              PredictionModule.SYMBOLS
     = [ Double.Digits (Js.mkFixed2 false 262);
         Double.Digits (Js.mkFixed2 true 285);
         Double.Digits (Js.mkFixed2 false 238);
         Double.Digits (Js.mkFixed2 true 321);
         Double.Digits (Js.mkFixed2 false 393);
         Double.Digits (Js.mkFixed2 false 311);
         Double.Digits (Js.mkFixed2 true 451) ].
Proof.
  assert (Hsign : forall p : PredictionModule.PredictionData,
            PredictionView.change_sign p = "+"
            <-> PredictionModule.pd_currentPrice p
                < PredictionModule.pd_lstm p).
  { intros p. unfold PredictionView.change_sign.
    destruct (Js.gtb (PredictionModule.pd_lstm p)
                     (PredictionModule.pd_currentPrice p)) eqn:E.
    - apply gtb_true in E. tauto.
    - apply gtb_false in E. split; [discriminate | lra]. }
  split; [exact Hsign |]. split.
  { intros p Hb. apply recommendation_buy_iff in Hb as [_ Hl].
    split; [apply Hsign; exact Hl |].
    unfold PredictionView.change_class.
    rewrite (proj2 (gtb_true _ _) Hl). reflexivity. }
  split; [| vm_compute; reflexivity].
  destruct s; eexists; (split; [vm_compute; reflexivity |]);
    (split; [reflexivity |]); split; split; intros H;
    first [reflexivity | discriminate H].
Qed.

(** ** The prediction chart *)

Lemma sample_sin_zero (a : Q) : a == 0 -> Js.sin Sample.env a == 0.
Proof.
  intros Ha. cbn [Js.sin Sample.env]. unfold Sample.sin.
  rewrite (Qfloor_comp (a * inject_Z Sample.scale) 0)
    by (rewrite Ha; reflexivity).
  reflexivity.
Qed.

(** X4.  [generatePredictionChart] returns [null] before the first
    prediction.  On the prediction that is stored for a symbol, whichever
    of the seven, it returns 15 points, the days -7 to 7 in order with their
    dates: 8 historical ones and 7 predictions.  The seven predicted prices
    are the strings that binary64 arithmetic prints; each lies between the
    current price and the forecast, and the last one is the forecast.  With
    a sine that is 0 at 0, the price of today is the current price. *)
Theorem generatePredictionChart_of_stored_prediction
    (env : Js.Env) (date_label : Z -> string) (s : PredictionModule.Symbol) :
  (forall a, a == 0 -> Js.sin env a == 0) ->
  PredictionView.generatePredictionChart env date_label None = None
  /\ exists chart,
       PredictionView.generatePredictionChart
         env date_label (Some (Timed.prediction s))
       = Some chart
       /\ List.map PredictionView.cp_day chart
          = [-7; -6; -5; -4; -3; -2; -1; 0; 1; 2; 3; 4; 5; 6; 7]%Z
       /\ List.map PredictionView.cp_date chart
          = List.map date_label
              [-7; -6; -5; -4; -3; -2; -1; 0; 1; 2; 3; 4; 5; 6; 7]%Z
       /\ List.map PredictionView.cp_type chart
          = List.repeat "historical" 8 ++ List.repeat "prediction" 7
       /\ List.map (fun pt => Double.Digits (PredictionView.cp_price pt))
                   (skipn 8 chart)
          = List.map
              (fun i =>
                 Double.toFixed2
                   (PredictionView.prediction_price
                      (PredictionModule.pd_currentPrice (Timed.prediction s))
                      (PredictionModule.pd_lstm (Timed.prediction s)) i))
              [1; 2; 3; 4; 5; 6; 7]%nat
       /\ Forall
            (fun pt =>
               Qmin (PredictionModule.pd_currentPrice (Timed.prediction s))
                    (PredictionModule.pd_lstm (Timed.prediction s))
               <= JsNum.parseFloat (PredictionView.cp_price pt)
               <= Qmax (PredictionModule.pd_currentPrice (Timed.prediction s))
                       (PredictionModule.pd_lstm (Timed.prediction s)))
            (skipn 8 chart)
       /\ (forall pt, In pt chart -> PredictionView.cp_day pt = 7%Z ->
           PredictionView.cp_price pt
           = Js.toFixed2 (PredictionModule.pd_lstm (Timed.prediction s)))
       /\ (forall pt, In pt chart -> PredictionView.cp_day pt = 0%Z ->
           PredictionView.cp_price pt
           = Js.toFixed2
               (PredictionModule.pd_currentPrice (Timed.prediction s))).
Proof.
  intros Hsin0. split; [reflexivity |].
  eexists. split; [reflexivity |]. split; [reflexivity |].
  split; [reflexivity |]. split; [reflexivity |].
  cbn [PredictionView.historical_loop PredictionView.prediction_loop
       PredictionView.days app skipn].
  split; [destruct s; vm_compute; reflexivity |].
  split.
  { repeat constructor; destruct s; vm_compute; intros H; discriminate H. }
  split.
  - intros pt Hin Hday. cbn [In] in Hin.
    repeat (destruct Hin as [<- | Hin];
            [try (cbn in Hday; discriminate) |]); [| contradiction].
    destruct s; vm_compute; reflexivity.
  - intros pt Hin Hday. cbn [In] in Hin.
    repeat (destruct Hin as [<- | Hin];
            [try (cbn in Hday; discriminate) |]); [| contradiction].
    cbn [PredictionView.historical_point PredictionView.cp_price].
    apply toFixed2_wd.
    rewrite (Hsin0 (inject_Z (Z.of_nat 0) * 0.2)) by reflexivity. ring.
Qed.

Lemma generatePredictionChart_of_stored_prediction_witness :
  PredictionView.generatePredictionChart
    Sample.env (fun d => ApiClient.string_of_Z (20000 + d)) None = None
  /\ exists chart,
       PredictionView.generatePredictionChart
         Sample.env (fun d => ApiClient.string_of_Z (20000 + d))
         (Some (Timed.prediction PredictionModule.TSLA))
       = Some chart
       /\ List.map PredictionView.cp_day chart
          = [-7; -6; -5; -4; -3; -2; -1; 0; 1; 2; 3; 4; 5; 6; 7]%Z
       /\ List.map PredictionView.cp_date chart
          = List.map (fun d => ApiClient.string_of_Z (20000 + d))
              [-7; -6; -5; -4; -3; -2; -1; 0; 1; 2; 3; 4; 5; 6; 7]%Z
       /\ List.map PredictionView.cp_type chart
          = List.repeat "historical" 8 ++ List.repeat "prediction" 7
       /\ List.map (fun pt => Double.Digits (PredictionView.cp_price pt))
                   (skipn 8 chart)
          = List.map
              (fun i =>
                 Double.toFixed2
                   (PredictionView.prediction_price
                      (PredictionModule.pd_currentPrice
                         (Timed.prediction PredictionModule.TSLA))
                      (PredictionModule.pd_lstm
                         (Timed.prediction PredictionModule.TSLA)) i))
              [1; 2; 3; 4; 5; 6; 7]%nat
       /\ Forall
            (fun pt =>
               Qmin (PredictionModule.pd_currentPrice
                       (Timed.prediction PredictionModule.TSLA))
                    (PredictionModule.pd_lstm
                       (Timed.prediction PredictionModule.TSLA))
               <= JsNum.parseFloat (PredictionView.cp_price pt)
               <= Qmax (PredictionModule.pd_currentPrice
                          (Timed.prediction PredictionModule.TSLA))
                       (PredictionModule.pd_lstm
                          (Timed.prediction PredictionModule.TSLA)))
            (skipn 8 chart)
       /\ (forall pt, In pt chart -> PredictionView.cp_day pt = 7%Z ->
           PredictionView.cp_price pt
           = Js.toFixed2
               (PredictionModule.pd_lstm
                  (Timed.prediction PredictionModule.TSLA)))
       /\ (forall pt, In pt chart -> PredictionView.cp_day pt = 0%Z ->
           PredictionView.cp_price pt
           = Js.toFixed2
               (PredictionModule.pd_currentPrice
                  (Timed.prediction PredictionModule.TSLA))).
Proof.
  apply (generatePredictionChart_of_stored_prediction
           Sample.env (fun d => ApiClient.string_of_Z (20000 + d))
           PredictionModule.TSLA).
  exact sample_sin_zero.
Defined.

(** ** Polylines *)

Lemma Math_max_bounds (xs : list Q) (x : Q) :
  x <= JsNum.Math_max x xs
  /\ Forall (fun v => v <= JsNum.Math_max x xs) xs.
Proof.
  unfold JsNum.Math_max. revert x.
  induction xs as [| a xs IH]; intros x; cbn [fold_left].
  - split; [lra | constructor].
  - destruct (IH (Qmax x a)) as [H1 H2].
    pose proof (Q.le_max_l x a). pose proof (Q.le_max_r x a).
    split; [lra |]. constructor; [lra | exact H2].
Qed.

Lemma Math_min_bounds (xs : list Q) (x : Q) :
  JsNum.Math_min x xs <= x
  /\ Forall (fun v => JsNum.Math_min x xs <= v) xs.
Proof.
  unfold JsNum.Math_min. revert x.
  induction xs as [| a xs IH]; intros x; cbn [fold_left].
  - split; [lra | constructor].
  - destruct (IH (Qmin x a)) as [H1 H2].
    pose proof (Q.le_min_l x a). pose proof (Q.le_min_r x a).
    split; [lra |]. constructor; [lra | exact H2].
Qed.

(** Between two different extremes the ordinate is a percentage. *)
Lemma y_of_range (minPrice maxPrice : Q) (price : Js.Fixed2) :
  minPrice < maxPrice ->
  minPrice <= JsNum.parseFloat price <= maxPrice ->
  exists v,
    Polyline.y_of minPrice (maxPrice - minPrice) price = JsNum.Fin v
    /\ 0 <= v <= 100.
Proof.
  intros Hr [Hl Hu]. unfold Polyline.y_of.
  rewrite div_nonzero by lra. cbn [JsNum.times100 JsNum.from100].
  eexists. split; [reflexivity |].
  set (q := (JsNum.parseFloat price - minPrice) / (maxPrice - minPrice)).
  assert (H0 : 0 <= q) by (apply Qle_shift_div_l; lra).
  assert (H1 : q <= 1) by (apply Qle_shift_div_r; lra).
  clearbody q. split; lra.
Qed.

(** When all prices are equal the ordinate is [0 / 0]. *)
Lemma y_of_flat (minPrice maxPrice : Q) (price : Js.Fixed2) :
  minPrice == maxPrice ->
  minPrice <= JsNum.parseFloat price <= maxPrice ->
  Polyline.y_of minPrice (maxPrice - minPrice) price = JsNum.NaN.
Proof.
  intros Hr [Hl Hu]. unfold Polyline.y_of.
  rewrite div_zero_zero by lra. reflexivity.
Qed.

Lemma x_of_range (length : nat) (index : Z) :
  (2 <= length)%nat -> (0 <= index <= Z.of_nat length - 1)%Z ->
  exists v, Polyline.x_of length index = JsNum.Fin v /\ 0 <= v <= 100.
Proof.
  intros Hn [Hi0 Hi1]. unfold Polyline.x_of.
  assert (Hlen : 1 <= inject_Z (Z.of_nat length) - 1).
  { assert (H : 2 <= inject_Z (Z.of_nat length))
      by (change 2 with (inject_Z 2); rewrite <- Zle_Qle; lia).
    lra. }
  rewrite div_nonzero by lra. cbn [JsNum.times100].
  eexists. split; [reflexivity |].
  assert (Hq0 : 0 <= inject_Z index)
    by (change 0 with (inject_Z 0); rewrite <- Zle_Qle; lia).
  assert (Hq1 : inject_Z index <= inject_Z (Z.of_nat length) - 1).
  { assert (H : inject_Z index <= inject_Z (Z.of_nat length - 1))
      by (rewrite <- Zle_Qle; lia).
    unfold Z.sub in H. rewrite inject_Z_plus, inject_Z_opp in H.
    change (inject_Z 1) with 1 in H. lra. }
  set (q := inject_Z index / (inject_Z (Z.of_nat length) - 1)).
  assert (H0 : 0 <= q) by (apply Qle_shift_div_l; lra).
  assert (H1 : q <= 1) by (apply Qle_shift_div_r; lra).
  clearbody q. split; lra.
Qed.

Lemma map_index_length {A B : Type} (f : Z -> A -> B) (l : list A) (i : Z) :
  length (Polyline.map_index f i l) = length l.
Proof.
  revert i. induction l as [| a l IH]; intros i; simpl; [| rewrite IH];
    reflexivity.
Qed.

Lemma map_index_Forall {A B : Type} (f : Z -> A -> B) (P : B -> Prop)
    (l : list A) (i : Z) :
  (forall k a, In a l -> (i <= k < i + Z.of_nat (length l))%Z -> P (f k a)) ->
  Forall P (Polyline.map_index f i l).
Proof.
  revert i. induction l as [| a l IH]; intros i H; cbn [Polyline.map_index].
  - constructor.
  - constructor.
    + apply H; [now left | cbn [length]; lia].
    + apply IH. intros k b Hb Hk. apply H; [now right | cbn [length]; lia].
Qed.

Lemma every_fifth_incl (l : list Polyline.Point) (i : Z) (pt : Polyline.Point) :
  In pt (AnalysisView.every_fifth i l) -> In pt l.
Proof.
  revert i. induction l as [| a l IH]; intros i; cbn [AnalysisView.every_fifth].
  - trivial.
  - destruct (i mod 5 =? 0)%Z.
    + intros [H | H]; [now left | right; eapply IH; exact H].
    + intros H. right. eapply IH. exact H.
Qed.

(** X5.  [SimpleChart] draws nothing for no data and for an empty list.
    For a non-empty list it draws one point per bar; the extremes bound every
    price it reads; when they differ every ordinate is a percentage between
    0 and 100, and when all prices are equal every ordinate is [NaN]; with
    two bars or more every abscissa is between 0 and 100, and with a single
    bar it is [NaN].  The circles are points of the line. *)
Theorem SimpleChart_coordinates (d0 : AnalysisModule.Bar)
    (rest : list AnalysisModule.Bar) :
  AnalysisView.SimpleChart None = None
  /\ AnalysisView.SimpleChart (Some []) = None
  /\ exists dr,
       AnalysisView.SimpleChart (Some (d0 :: rest)) = Some dr
       /\ length (AnalysisView.line dr) = S (length rest)
       /\ Forall (fun d =>
                    AnalysisView.minPrice dr
                    <= JsNum.parseFloat (AnalysisModule.price d)
                    <= AnalysisView.maxPrice dr) (d0 :: rest)
       /\ (AnalysisView.minPrice dr < AnalysisView.maxPrice dr ->
           Forall (fun pt => exists v, Polyline.y pt = JsNum.Fin v
                                       /\ 0 <= v <= 100)
                  (AnalysisView.line dr))
       /\ (AnalysisView.minPrice dr == AnalysisView.maxPrice dr ->
           Forall (fun pt => Polyline.y pt = JsNum.NaN) (AnalysisView.line dr))
       /\ (rest <> [] ->
           Forall (fun pt => exists v, Polyline.x pt = JsNum.Fin v
                                       /\ 0 <= v <= 100)
                  (AnalysisView.line dr))
       /\ (rest = [] ->
           Forall (fun pt => Polyline.x pt = JsNum.NaN) (AnalysisView.line dr))
       /\ (forall pt, In pt (AnalysisView.circles dr) ->
           In pt (AnalysisView.line dr)).
Proof.
  split; [reflexivity |]. split; [reflexivity |].
  eexists. split; [reflexivity |]. cbn [AnalysisView.line
    AnalysisView.circles AnalysisView.minPrice AnalysisView.maxPrice].
  set (prices := List.map
                   (fun d => JsNum.parseFloat (AnalysisModule.price d)) rest).
  set (p0 := JsNum.parseFloat (AnalysisModule.price d0)).
  destruct (Math_max_bounds prices p0) as [Hmax0 Hmax].
  destruct (Math_min_bounds prices p0) as [Hmin0 Hmin].
  set (hi := JsNum.Math_max p0 prices) in *.
  set (lo := JsNum.Math_min p0 prices) in *.
  assert (Hall : Forall (fun d => lo <= JsNum.parseFloat (AnalysisModule.price d)
                                   <= hi) (d0 :: rest)).
  { constructor; [fold p0; lra |].
    unfold prices in Hmax, Hmin. rewrite List.Forall_map in Hmax, Hmin.
    rewrite List.Forall_forall in *. intros d Hd.
    specialize (Hmax d Hd). specialize (Hmin d Hd). cbv beta in *. lra. }
  rewrite List.Forall_forall in Hall.
  split; [rewrite map_index_length; reflexivity |].
  split; [apply List.Forall_forall; exact Hall |].
  split; [| split; [| split; [| split]]].
  - intros Hr. apply map_index_Forall. intros k a Ha _.
    cbn [Polyline.y]. apply y_of_range; [exact Hr | apply Hall; exact Ha].
  - intros Hr. apply map_index_Forall. intros k a Ha _.
    cbn [Polyline.y]. apply y_of_flat; [exact Hr | apply Hall; exact Ha].
  - intros Hne. apply map_index_Forall. intros k a _ Hk.
    cbn [Polyline.x]. apply x_of_range.
    + destruct rest; [contradiction | cbn [length]; lia].
    + lia.
  - intros ->. cbn. constructor; [reflexivity | constructor].
  - intros pt. apply every_fifth_incl.
Qed.

(** ** The prediction chart of a forecast *)

(** X7.  The chart that [generatePredictionChart] builds is always drawn by
    [PredictionChart]: eight historical points on the slots 0 to 7 of 14,
    and seven prediction points on the slots 7 to 13.  The first prediction
    (tomorrow) is therefore drawn on the abscissa of the current point, at
    50%, and the prediction line stops short of the right edge. *)
Theorem PredictionChart_of_generated_chart
    (env : Js.Env) (date_label : Z -> string)
    (p : PredictionModule.PredictionData) :
  exists dr,
    PredictionView.PredictionChart
      (PredictionView.generatePredictionChart env date_label (Some p))
    = Polyline.Drawn dr
    /\ List.map Polyline.x (PredictionView.historical_line dr)
       = List.map (Polyline.x_of 15) [0; 1; 2; 3; 4; 5; 6; 7]%Z
    /\ List.map Polyline.x (PredictionView.prediction_line dr)
       = List.map (Polyline.x_of 15) [7; 8; 9; 10; 11; 12; 13]%Z
    /\ Polyline.x (PredictionView.current_point dr) = Polyline.x_of 15 7
    /\ Polyline.y (PredictionView.current_point dr)
       = Polyline.y_of (PredictionView.minPrice dr)
           (PredictionView.maxPrice dr - PredictionView.minPrice dr)
           (Js.toFixed2
              (PredictionModule.pd_currentPrice p
               * (1 + Js.sin env (0 * 0.2) * 0.02)))
    /\ (exists v, Polyline.x_of 15 7 = JsNum.Fin v /\ v == 50)
    /\ (exists v, Polyline.x_of 15 13 = JsNum.Fin v /\ v < 100).
Proof.
  eexists. split; [reflexivity |].
  cbn [PredictionView.historical_line PredictionView.prediction_line
       PredictionView.current_point PredictionView.minPrice
       PredictionView.maxPrice].
  repeat split.
  - eexists. split; [reflexivity |]. reflexivity.
  - eexists. split; [reflexivity |]. reflexivity.
Qed.

(** ** Market data requests *)

Lemma volume_bounds (r : Q) :
  0 <= r < 1 -> (0 <= Qfloor (r * 100000000) <= 99999999)%Z.
Proof.
  intros [H0 H1]. split.
  - change 0%Z with (Qfloor 0). apply Qfloor_resp_le. lra.
  - assert (H : (Qfloor (r * 100000000) < 100000000)%Z); [| lia].
    rewrite Zlt_Qlt.
    apply Qle_lt_trans with (r * 100000000); [apply Qfloor_le |].
    change (inject_Z 100000000) with 100000000. lra.
Qed.

(** X8.  [getMarketData] resolves for every symbol string, known, unknown
    or inherited from [Object.prototype]: the envelope has [success] true and
    the source 'offline', the record carries the symbol that was asked for,
    exactly one draw of [Math.random()] is consumed, and the volume is a
    whole number from 0 to 99999999. *)
Theorem getMarketData_always_resolves
    (self : ApiClient.t) (env : Js.Env) (symbol : string) (cursor : nat) :
  0 <= Js.random env cursor < 1 ->
  exists d,
    ApiClient.getMarketData self env symbol cursor
    = (Some (ApiClient.mkResponse true d "offline"), S cursor)
    /\ ApiClient.md_symbol d = symbol
    /\ (0 <= ApiClient.md_volume d <= 99999999)%Z
    /\ (forall q, ApiClient.marketBaseData !! symbol = Some q ->
                  ApiClient.md_price d = Js.VNum (ApiClient.price q))
    /\ (ApiClient.marketBaseData !! symbol = None ->
        ApiClient.md_price d = Js.VNum 190.50
        \/ ApiClient.md_price d = Js.VUndefined).
Proof.
  intros Hr. apply volume_bounds in Hr.
  unfold ApiClient.getMarketData, ApiClient.generateMockMarketData,
    ApiClient.or_AAPL.
  destruct (get_cases ApiClient.marketBaseData symbol)
    as [(q & Hq & ->) | [(Hnone & _ & ->) | (Hnone & _ & ->)]].
  - simpl. eexists. split; [reflexivity |]. split; [reflexivity |].
    split; [exact Hr |]. split; [| congruence].
    intros q' Hq'. rewrite Hq in Hq'. apply (inj Some) in Hq'.
    subst q'. reflexivity.
  - simpl. eexists. split; [reflexivity |]. split; [reflexivity |].
    split; [exact Hr |]. split; [congruence | intros _; right; reflexivity].
  - rewrite marketBaseData_AAPL. simpl.
    eexists. split; [reflexivity |]. split; [reflexivity |].
    split; [exact Hr |]. split; [congruence | intros _; left; reflexivity].
Qed.

Lemma getMarketData_always_resolves_witness :
  exists d,
    ApiClient.getMarketData
      (ApiClient.constructor Js.VNull) (Js.mkEnv (fun _ => 0) (fun _ => 0.25))
      "toString" 3
    = (Some (ApiClient.mkResponse true d "offline"), 4%nat)
    /\ ApiClient.md_symbol d = "toString"
    /\ (0 <= ApiClient.md_volume d <= 99999999)%Z
    /\ (forall q, ApiClient.marketBaseData !! "toString" = Some q ->
                  ApiClient.md_price d = Js.VNum (ApiClient.price q))
    /\ (ApiClient.marketBaseData !! "toString" = None ->
        ApiClient.md_price d = Js.VNum 190.50
        \/ ApiClient.md_price d = Js.VUndefined).
Proof.
  apply (getMarketData_always_resolves
           (ApiClient.constructor Js.VNull)
           (Js.mkEnv (fun _ => 0) (fun _ => 0.25)) "toString" 3).
  simpl. lra.
Defined.

(** ** The shell of the application *)

Lemma shell_invariant_initial : Invariants.shell_invariant AppShell.initial.
Proof.
  split; [reflexivity | split; [left; reflexivity | reflexivity]].
Qed.

Lemma trigger_value (value : string) :
  existsb (String.eqb value) AppShell.triggers = true ->
  In value AppShell.triggers.
Proof.
  intros H. apply existsb_exists in H as (v & Hin & Hv).
  apply String.eqb_eq in Hv. subst v. exact Hin.
Qed.

Lemma click_invariant (st : AppShell.State) (c : AppShell.Control) :
  Invariants.shell_invariant st ->
  Invariants.shell_invariant (AppShell.click st c).
Proof.
  intros (Hout & Htab & Huser). unfold AppShell.click.
  destruct (AppShell.rendered st c) eqn:Hr;
    [| split; [exact Hout | split; [exact Htab | exact Huser]]].
  destruct c; cbn in Hr |- *; unfold Invariants.shell_invariant; cbn.
  - split; [discriminate | split; [exact Htab | exact Huser]].
  - split; [discriminate | split; [exact Htab | exact Huser]].
  - split; [reflexivity | split; [left; reflexivity | exact Huser]].
  - apply andb_true_iff in Hr as [Hin Hv].
    split; [rewrite Hin; discriminate |].
    split; [| exact Huser].
    apply trigger_value. cbn. exact Hv.
  - apply andb_true_iff in Hr as [Hin _].
    split; [rewrite Hin; discriminate |].
    split; [right; left; reflexivity | exact Huser].
  - apply andb_true_iff in Hr as [Hin _].
    split; [rewrite Hin; discriminate |].
    split; [right; right; left; reflexivity | exact Huser].
  - split; [exact Hout | split; [exact Htab | exact Huser]].
Qed.

Lemma clicks_invariant (clicks : list AppShell.Control) (st : AppShell.State) :
  Invariants.shell_invariant st ->
  Invariants.shell_invariant (fold_left AppShell.click clicks st).
Proof.
  revert st. induction clicks as [| c clicks IH]; intros st H; cbn [fold_left].
  - exact H.
  - apply IH, click_invariant, H.
Qed.

(** X9.  Whatever is clicked, in whatever order: while the login form is
    shown the active tab is the overview, so every login, first or after a
    logout, opens on the overview; the page always has a content (the login
    form or one of the three tabs); the header names 'Usuario Demo'; and
    the two buttons of the login form do the same. *)
Theorem App_opens_on_overview (clicks : list AppShell.Control) :
  (AppShell.isLoggedIn (AppShell.run clicks) = false ->
   AppShell.view (AppShell.run clicks) = AppShell.LoginForm
   /\ AppShell.view (AppShell.click (AppShell.run clicks) AppShell.IniciarSesion)
      = AppShell.Resumen)
  /\ AppShell.view
       (AppShell.click (AppShell.click (AppShell.run clicks) AppShell.Salir)
                       AppShell.IniciarSesion)
     = AppShell.Resumen
  /\ AppShell.view (AppShell.run clicks) <> AppShell.NoContent
  /\ AppShell.header_name (AppShell.run clicks) = "Usuario Demo"
  /\ AppShell.click (AppShell.run clicks) AppShell.UsarCuentaDemo
     = AppShell.click (AppShell.run clicks) AppShell.IniciarSesion.
Proof.
  pose proof (clicks_invariant clicks AppShell.initial shell_invariant_initial)
    as (Hout & Htab & Huser).
  fold (AppShell.run clicks) in Hout, Htab, Huser.
  set (st := AppShell.run clicks) in *. clearbody st.
  destruct st as [logged tab user]. cbn in Hout, Htab, Huser.
  split; [| split; [| split; [| split]]].
  - intros Hl. cbn in Hl. subst logged. rewrite (Hout eq_refl).
    split; reflexivity.
  - destruct logged; [reflexivity |]. rewrite (Hout eq_refl). reflexivity.
  - unfold AppShell.view. cbn.
    destruct logged; cbn; [| discriminate].
    destruct Htab as [<- | [<- | [<- | []]]]; cbn; discriminate.
  - unfold AppShell.header_name. cbn. rewrite Huser. reflexivity.
  - reflexivity.
Qed.

(** ** Loading on a timer *)

Section Timers.

Variable Data : Type.
Variable fetch : PredictionModule.Symbol -> Data.

Let invariant := Invariants.timed_invariant fetch.

Lemma timed_mount : invariant Timed.mount.
Proof. split; [reflexivity | discriminate]. Qed.

Lemma timed_handle (w : Timed.World Data) : invariant (Timed.handle w).
Proof.
  split; cbn.
  - rewrite last_last. reflexivity.
  - intros H. apply app_eq_nil in H as [_ H]. discriminate.
Qed.

Lemma timed_step (w : Timed.World Data) (e : Timed.Event) :
  invariant w -> invariant (Timed.step fetch w e).
Proof.
  intros Hinv. pose proof Hinv as [Hlast Hidle].
  destruct e as [s | |]; cbn [Timed.step].
  - destruct (Timed.Symbol_eqb s _); [exact Hinv | apply timed_handle].
  - case (Timed.loading (Timed.cells w)); [exact Hinv | apply timed_handle].
  - destruct (Timed.timers w) as [| captured rest] eqn:Ht;
      [split; [rewrite Ht; reflexivity | intros _; apply Hidle; reflexivity] |].
    split; cbn.
    + destruct rest as [| next rest]; [reflexivity | exact Hlast].
    + intros ->. cbn in Hlast. rewrite Hlast. split; reflexivity.
Qed.

Lemma timed_run (events : list Timed.Event) (w : Timed.World Data) :
  invariant w -> invariant (Timed.run fetch w events).
Proof.
  revert w. induction events as [| e events IH]; intros w H;
    cbn [Timed.run fold_left].
  - exact H.
  - apply IH, timed_step, H.
Qed.

Lemma timed_timeout_selected (w : Timed.World Data) :
  Timed.selectedSymbol (Timed.cells (Timed.step fetch w Timed.Timeout))
  = Timed.selectedSymbol (Timed.cells w).
Proof.
  cbn [Timed.step]. destruct (Timed.timers w); reflexivity.
Qed.

(** Firing the pending timers, all of them. *)
Lemma timed_drain (n : nat) (w : Timed.World Data) :
  invariant w -> length (Timed.timers w) = n ->
  Timed.timers (Timed.run fetch w (repeat Timed.Timeout n)) = []
  /\ Timed.selectedSymbol (Timed.cells (Timed.run fetch w
                                         (repeat Timed.Timeout n)))
     = Timed.selectedSymbol (Timed.cells w)
  /\ Timed.loading (Timed.cells (Timed.run fetch w (repeat Timed.Timeout n)))
     = false
  /\ Timed.data (Timed.cells (Timed.run fetch w (repeat Timed.Timeout n)))
     = Some (fetch (Timed.selectedSymbol (Timed.cells w))).
Proof.
  revert w. induction n as [| n IH]; intros w Hinv Hlen.
  - cbn. destruct (Timed.timers w) eqn:Ht; [| discriminate].
    destruct Hinv as [_ Hidle]. destruct (Hidle Ht) as [Hl Hd].
    repeat split; assumption.
  - cbn [repeat Timed.run fold_left].
    pose proof (timed_step w Timed.Timeout Hinv) as Hinv'.
    pose proof (timed_timeout_selected w) as Hsel.
    assert (Hlen' : length (Timed.timers (Timed.step fetch w Timed.Timeout))
                    = n).
    { cbn [Timed.step]. destruct (Timed.timers w); [discriminate |].
      cbn in Hlen |- *. lia. }
    destruct (IH _ Hinv' Hlen') as (H1 & H2 & H3 & H4).
    unfold Timed.run in H1, H2, H3, H4. rewrite Hsel in H2, H4.
    repeat split; assumption.
Qed.



End Timers.

Lemma symbol_name_inj (a b : PredictionModule.Symbol) :
  a <> b -> Timed.Symbol_eqb a b = false.
Proof.
  intros H. destruct a, b; try reflexivity; contradiction H; reflexivity.
Qed.

(** X10.  In [PredictionModule] and in [AnalysisModule], after any sequence
    of selections, clicks and timeouts: once the timers that are pending
    have fired, none is pending, the spinner is off, the selection is the
    one it was, and the object shown is the one of the selected symbol. *)
Theorem timers_settle_on_selected_symbol (events : list Timed.Event) :
  (let w := Timed.run Timed.prediction Timed.mount events in
   let settled :=
     Timed.run Timed.prediction w
               (repeat Timed.Timeout (length (Timed.timers w))) in
   Timed.timers settled = []
   /\ Timed.selectedSymbol (Timed.cells settled)
      = Timed.selectedSymbol (Timed.cells w)
   /\ Timed.loading (Timed.cells settled) = false
   /\ Timed.data (Timed.cells settled)
      = PredictionModule.predictionData
          (PredictionModule.handlePredict
             (PredictionModule.mkState
                (Timed.selectedSymbol (Timed.cells w)) None false)))
  /\ (let w := Timed.run AnalysisModule.handleAnalyze Timed.mount events in
      let settled :=
        Timed.run AnalysisModule.handleAnalyze w
                  (repeat Timed.Timeout (length (Timed.timers w))) in
      Timed.timers settled = []
      /\ Timed.selectedSymbol (Timed.cells settled)
         = Timed.selectedSymbol (Timed.cells w)
      /\ Timed.loading (Timed.cells settled) = false
      /\ Timed.data (Timed.cells settled)
         = Some (AnalysisModule.handleAnalyze
                   (Timed.selectedSymbol (Timed.cells w)))).
Proof.
  split; cbv zeta.
  - apply (timed_drain _ Timed.prediction);
      [apply timed_run, timed_mount | reflexivity].
  - apply (timed_drain _ AnalysisModule.handleAnalyze);
      [apply timed_run, timed_mount | reflexivity].
Qed.

(** X11.  A selection made while a request is pending is answered first by
    the request of the symbol selected before: from a component at rest, a
    click, the selection of another symbol and one timeout leave the new
    symbol selected, the spinner off and the button enabled, and the object
    of the old symbol on the page, with one timer still pending. *)
Theorem stale_prediction_after_selection
    (events : list Timed.Event) (s : PredictionModule.Symbol) :
  Timed.timers (Timed.run Timed.prediction Timed.mount events) = [] ->
  s <> Timed.selectedSymbol
         (Timed.cells (Timed.run Timed.prediction Timed.mount events)) ->
  Timed.run Timed.prediction Timed.mount
            (events ++ [Timed.Click; Timed.Select s; Timed.Timeout])
  = Timed.mkWorld
      (Timed.mkCells s
         (Some (Timed.prediction
                  (Timed.selectedSymbol
                     (Timed.cells
                        (Timed.run Timed.prediction Timed.mount events)))))
         false)
      [s]
  /\ Timed.prediction
       (Timed.selectedSymbol
          (Timed.cells (Timed.run Timed.prediction Timed.mount events)))
     <> Timed.prediction s.
Proof.
  intros Hidle Hs.
  pose proof (timed_run _ Timed.prediction events Timed.mount
                (timed_mount _ Timed.prediction)) as [_ Hrest].
  unfold Timed.run at 1. rewrite fold_left_app.
  fold (Timed.run Timed.prediction Timed.mount events).
  set (w := Timed.run Timed.prediction Timed.mount events) in *.
  destruct (Hrest Hidle) as [Hl _]. split.
  - clearbody w. destruct w as [[sel d l] t].
    cbn in Hidle, Hl, Hs |- *. subst t l. cbn.
    rewrite (symbol_name_inj s sel Hs). reflexivity.
  - intros H. apply (f_equal PredictionModule.pd_symbol) in H. cbn in H.
    apply Hs. clear -H.
    destruct (Timed.selectedSymbol (Timed.cells w)), s;
      try reflexivity; discriminate H.
Qed.

Lemma stale_prediction_after_selection_witness :
  Timed.run Timed.prediction Timed.mount
            ([Timed.Timeout]
             ++ [Timed.Click; Timed.Select PredictionModule.GOOGL;
                 Timed.Timeout])
  = Timed.mkWorld
      (Timed.mkCells PredictionModule.GOOGL
         (Some (Timed.prediction
                  (Timed.selectedSymbol
                     (Timed.cells
                        (Timed.run Timed.prediction Timed.mount
                                   [Timed.Timeout])))))
         false)
      [PredictionModule.GOOGL]
  /\ Timed.prediction
       (Timed.selectedSymbol
          (Timed.cells (Timed.run Timed.prediction Timed.mount
                                  [Timed.Timeout])))
     <> Timed.prediction PredictionModule.GOOGL.
Proof.
  apply (stale_prediction_after_selection
           [Timed.Timeout] PredictionModule.GOOGL).
  - reflexivity.
  - discriminate.
Defined.

(** ** The forecasts of the client's table *)

Lemma predictionBaseData_lookup (k : string) (f : App.Forecast) :
  ApiClient.predictionBaseData !! k = Some f ->
  (App.svm f = "subida" \/ App.svm f = "bajada")
  /\ 0 < App.lstm f
  /\ 0 <= App.confidence f <= 1.
Proof.
  unfold ApiClient.predictionBaseData. intros H.
  apply elem_of_list_to_map_2 in H.
  repeat (apply elem_of_cons in H as [H | H];
          [inversion H; subst; cbn;
           (split; [first [left; reflexivity | right; reflexivity] |]);
           split; [lra | split; lra] |]).
  apply elem_of_nil in H. contradiction.
Qed.

(** ** The predictions that reach the badge *)




(** ** C1 *)



(** ** C3 *)



(** ** C4 *)



(** ** The tables of the three files *)

(** X12.  For each of the seven symbols of the selector the tables agree:
    the current price of the prediction table is the price of the market
    table, the client's base data are the entries of the components, and the
    recommendation of the analysis card (the sign of the change) is the
    recommendation of the prediction card (both models upward), in the
    component and in the bundle. *)
Theorem tabs_agree_on_every_symbol
    (self : ApiClient.t) (s : PredictionModule.Symbol) :
  In s PredictionModule.SYMBOLS
  /\ PredictionModule.pd_currentPrice (Timed.prediction s)
     = AnalysisModule.ad_price (AnalysisModule.handleAnalyze s)
  /\ AnalysisView.recommendation (AnalysisModule.handleAnalyze s)
     = PredictionModule.badge (Timed.prediction s)
  /\ App.badge s = PredictionModule.badge (Timed.prediction s)
  /\ ApiClient.generateMockPredictions self (PredictionModule.symbol_name s)
     = Js.Own (App.mkForecast
                 (PredictionModule.pd_svm (Timed.prediction s))
                 (PredictionModule.pd_lstm (Timed.prediction s))
                 (PredictionModule.pd_confidence (Timed.prediction s)))
  /\ ApiClient.marketBaseData !! PredictionModule.symbol_name s
     = Some (ApiClient.mkQuote
               (AnalysisModule.ad_price (AnalysisModule.handleAnalyze s))
               (AnalysisModule.ad_change (AnalysisModule.handleAnalyze s))
               (AnalysisModule.ad_changePercent
                  (AnalysisModule.handleAnalyze s))).
Proof.
  destruct s; (split; [cbn; tauto |]); repeat split; vm_compute; reflexivity.
Qed.

(** ** The token of a login *)

Lemma to_int_nonnil (z : Z) :
  Z.to_int z <> Decimal.Pos Decimal.Nil
  /\ Z.to_int z <> Decimal.Neg Decimal.Nil.
Proof.
  destruct z as [| p | p]; cbn; split; try discriminate;
    intros H; injection H as H;
    pose proof (DecimalPos.Unsigned.of_to p) as E; rewrite H in E;
    discriminate E.
Qed.

Lemma string_of_Z_inj (a b : Z) :
  ApiClient.string_of_Z a = ApiClient.string_of_Z b -> a = b.
Proof.
  unfold ApiClient.string_of_Z. intros H.
  destruct (to_int_nonnil a) as [Ha1 Ha2].
  destruct (to_int_nonnil b) as [Hb1 Hb2].
  pose proof (NilZero.isi (Z.to_int a) Ha1 Ha2) as Ea.
  pose proof (NilZero.isi (Z.to_int b) Hb1 Hb2) as Eb.
  rewrite H in Ea. rewrite Ea in Eb. apply (inj Some) in Eb.
  rewrite <- (DecimalZ.of_to a), <- (DecimalZ.of_to b), Eb. reflexivity.
Qed.

(** X13.  The token of a login is the time of the login and nothing else:
    two logins, whoever logs in, get the same token exactly when they are
    resolved in the same millisecond; and the role is 'demo' for every user
    name, 'admin' included. *)
Theorem login_token_is_the_time
    (self : ApiClient.t) (c1 c2 : ApiClient.Credentials) (now1 now2 : Z) :
  exists r1 r2 : ApiClient.Response ApiClient.Session,
    ApiClient.login self (Some c1) now1 = Some r1
    /\ ApiClient.login self (Some c2) now2 = Some r2
    /\ (ApiClient.token (ApiClient.data r1) = ApiClient.token (ApiClient.data r2)
        <-> now1 = now2)
    /\ ApiClient.role (ApiClient.user (ApiClient.data r1)) = "demo"
    /\ ApiClient.role (ApiClient.user (ApiClient.data r2)) = "demo".
Proof.
  eexists. eexists. split; [reflexivity |]. split; [reflexivity |].
  cbn [ApiClient.data ApiClient.token ApiClient.user ApiClient.role].
  split; [| split; reflexivity].
  split; [| intros ->; reflexivity].
  intros H. apply string_of_Z_inj.
  cbn [String.append] in H.
  repeat (injection H as H). exact H.
Qed.

(** ** The averages of the asset card *)

(** X14.  For the analysis that is stored for a symbol, whichever of the
    seven, the asset card prints 'SMA 50' strictly below 'SMA 20' and
    'SMA 20' strictly below the current price, each as a two-decimal number
    without a minus sign, whatever the change and the recommendation are.
    The averages printed are 180.97 and 186.69 for AAPL, 166.44 and 171.70
    for GOOGL, 399.71 and 412.33 for MSFT, 236.45 and 243.92 for TSLA,
    169.38 and 174.73 for AMZN, 64495.97 and 66532.69 for BTC-USD, 3283.94
    and 3387.64 for ETH-USD. *)
Theorem asset_card_averages_ordered (s : PredictionModule.Symbol) :
  (exists f50 f20 fp,
     AnalysisView.sma50 (AnalysisModule.handleAnalyze s) = Double.Digits f50
     /\ AnalysisView.sma20 (AnalysisModule.handleAnalyze s)
        = Double.Digits f20
     /\ AnalysisView.price_text (AnalysisModule.handleAnalyze s)
        = Double.Digits fp
     /\ Js.negative f50 = false
     /\ Js.negative f20 = false
     /\ Js.negative fp = false
     /\ (Js.hundredths f50 < Js.hundredths f20 < Js.hundredths fp)%Z)
  /\ List.map
       (fun s => (AnalysisView.sma50 (AnalysisModule.handleAnalyze s),
                  AnalysisView.sma20 (AnalysisModule.handleAnalyze s)))
       PredictionModule.SYMBOLS
     = [ (Double.Digits (Js.mkFixed2 false 18097),
          Double.Digits (Js.mkFixed2 false 18669));
         (Double.Digits (Js.mkFixed2 false 16644),
          Double.Digits (Js.mkFixed2 false 17170));
         (Double.Digits (Js.mkFixed2 false 39971),
          Double.Digits (Js.mkFixed2 false 41233));
         (Double.Digits (Js.mkFixed2 false 23645),
          Double.Digits (Js.mkFixed2 false 24392));
         (Double.Digits (Js.mkFixed2 false 16938),
          Double.Digits (Js.mkFixed2 false 17473));
         (Double.Digits (Js.mkFixed2 false 6449597),
          Double.Digits (Js.mkFixed2 false 6653269));
         (Double.Digits (Js.mkFixed2 false 328394),
          Double.Digits (Js.mkFixed2 false 338764)) ].
Proof.
  split; [| vm_compute; reflexivity].
  destruct s; eexists; eexists; eexists;
    (split; [vm_compute; reflexivity |]);
    (split; [vm_compute; reflexivity |]);
    (split; [vm_compute; reflexivity |]);
    repeat split.
Qed.

(** ** The prediction chart on any data *)

Lemma last_map_Some {A : Type} (l : list A) :
  (l = [] /\ List.last (List.map Some l) None = None)
  \/ (exists a, In a l /\ List.last (List.map Some l) None = Some a).
Proof.
  induction l as [| a l IH]; [left; split; reflexivity | right].
  destruct IH as [[-> _] | (b & Hb & E)].
  - exists a. split; [left; reflexivity | reflexivity].
  - exists b. split; [right; exact Hb |].
    destruct l as [| c l]; [contradiction | exact E].
Qed.

Lemma filter_types_length (data : list PredictionView.ChartPoint) :
  (length (List.filter
             (fun d => String.eqb (PredictionView.cp_type d) "historical")
             data)
   + length (List.filter
               (fun d => String.eqb (PredictionView.cp_type d) "prediction")
               data)
   <= length data)%nat.
Proof.
  induction data as [| d data IH]; cbn [List.filter length]; [lia |].
  destruct (String.eqb (PredictionView.cp_type d) "historical") eqn:Eh.
  - apply String.eqb_eq in Eh. rewrite Eh. cbn. lia.
  - destruct (String.eqb (PredictionView.cp_type d) "prediction");
      cbn [length]; lia.
Qed.

(** X15.  [PredictionChart] draws nothing for no data and for an empty
    list, and it throws on a list without any historical point.  On any
    other list it draws: the two lines have no more points than the list,
    every ordinate is a percentage between 0 and 100 when the extremes
    differ and [NaN] when all prices are equal, and with two entries or more
    every abscissa is between 0 and 100. *)
Theorem PredictionChart_outcomes
    (d0 : PredictionView.ChartPoint) (rest : list PredictionView.ChartPoint) :
  PredictionView.PredictionChart None = Polyline.Null
  /\ PredictionView.PredictionChart (Some []) = Polyline.Null
  /\ ((forall d, In d (d0 :: rest) ->
                 PredictionView.cp_type d <> "historical") ->
      PredictionView.PredictionChart (Some (d0 :: rest)) = Polyline.TypeError)
  /\ ((exists d, In d (d0 :: rest)
                 /\ PredictionView.cp_type d = "historical") ->
      exists dr,
        PredictionView.PredictionChart (Some (d0 :: rest)) = Polyline.Drawn dr
        /\ (length (PredictionView.historical_line dr)
            + length (PredictionView.prediction_line dr)
            <= S (length rest))%nat
        /\ PredictionView.minPrice dr <= PredictionView.maxPrice dr
        /\ (PredictionView.minPrice dr < PredictionView.maxPrice dr ->
            Forall (fun pt => exists v, Polyline.y pt = JsNum.Fin v
                                        /\ 0 <= v <= 100)
                   (PredictionView.current_point dr
                    :: PredictionView.historical_line dr
                    ++ PredictionView.prediction_line dr))
        /\ (PredictionView.minPrice dr == PredictionView.maxPrice dr ->
            Forall (fun pt => Polyline.y pt = JsNum.NaN)
                   (PredictionView.current_point dr
                    :: PredictionView.historical_line dr
                    ++ PredictionView.prediction_line dr))
        /\ (rest <> [] ->
            Forall (fun pt => exists v, Polyline.x pt = JsNum.Fin v
                                        /\ 0 <= v <= 100)
                   (PredictionView.current_point dr
                    :: PredictionView.historical_line dr
                    ++ PredictionView.prediction_line dr))).
Proof.
  split; [reflexivity |]. split; [reflexivity |].
  set (data := d0 :: rest).
  set (is_historical :=
         fun d => String.eqb (PredictionView.cp_type d) "historical").
  set (is_prediction :=
         fun d => String.eqb (PredictionView.cp_type d) "prediction").
  pose proof (filter_types_length data) as Hlen.
  fold is_historical is_prediction in Hlen.
  set (prices := List.map
                   (fun d => JsNum.parseFloat (PredictionView.cp_price d))
                   rest).
  set (p0 := JsNum.parseFloat (PredictionView.cp_price d0)).
  destruct (Math_max_bounds prices p0) as [Hmax0 Hmax].
  destruct (Math_min_bounds prices p0) as [Hmin0 Hmin].
  assert (Hall : forall d, In d data ->
                   JsNum.Math_min p0 prices
                   <= JsNum.parseFloat (PredictionView.cp_price d)
                   <= JsNum.Math_max p0 prices).
  { intros d [<- | Hd]; [fold p0; lra |].
    unfold prices in Hmax, Hmin. rewrite List.Forall_map in Hmax, Hmin.
    rewrite List.Forall_forall in Hmax, Hmin.
    split; [apply (Hmin d Hd) | apply (Hmax d Hd)]. }
  split.
  - intros Hnone.
    assert (E : List.filter is_historical data = []).
    { destruct (List.filter is_historical data) as [| d l] eqn:E;
        [reflexivity |].
      assert (Hd : In d (List.filter is_historical data))
        by (rewrite E; left; reflexivity).
      apply filter_In in Hd as [Hd Ht]. apply String.eqb_eq in Ht.
      destruct (Hnone d Hd Ht). }
    unfold PredictionView.PredictionChart. fold data is_historical.
    rewrite E. reflexivity.
  - intros (d & Hd & Ht).
    assert (Hin : In d (List.filter is_historical data)).
    { apply filter_In. split; [exact Hd |]. apply String.eqb_eq. exact Ht. }
    destruct (last_map_Some (List.filter is_historical data))
      as [[E _] | (point & Hpoint & E)];
      [rewrite E in Hin; contradiction |].
    unfold PredictionView.PredictionChart.
    fold data is_historical is_prediction prices p0.
    rewrite E. eexists. split; [reflexivity |].
    cbn [PredictionView.historical_line PredictionView.prediction_line
         PredictionView.current_point PredictionView.minPrice
         PredictionView.maxPrice].
    split; [rewrite !map_index_length; exact Hlen |].
    split; [apply Qle_trans with p0; assumption |].
    assert (Hhist : forall a, In a (List.filter is_historical data) ->
                              In a data)
      by (intros a Ha; apply filter_In in Ha as [Ha _]; exact Ha).
    assert (Hpred : forall a, In a (List.filter is_prediction data) ->
                              In a data)
      by (intros a Ha; apply filter_In in Ha as [Ha _]; exact Ha).
    assert (Hpos : (1 <= length (List.filter is_historical data))%nat).
    { destruct (List.filter is_historical data);
        [contradiction | cbn [length]; lia]. }
    split; [| split].
    + intros Hr. constructor.
      * cbn [Polyline.y]. apply y_of_range; [exact Hr |].
        apply Hall, Hhist, Hpoint.
      * apply Forall_app. split; apply map_index_Forall; intros k a Ha _;
          cbn [Polyline.y]; (apply y_of_range; [exact Hr |]);
          apply Hall; [apply Hhist | apply Hpred]; exact Ha.
    + intros Hr. constructor.
      * cbn [Polyline.y]. apply y_of_flat; [exact Hr |].
        apply Hall, Hhist, Hpoint.
      * apply Forall_app. split; apply map_index_Forall; intros k a Ha _;
          cbn [Polyline.y]; (apply y_of_flat; [exact Hr |]);
          apply Hall; [apply Hhist | apply Hpred]; exact Ha.
    + intros Hne.
      assert (H2 : (2 <= length data)%nat)
        by (unfold data; destruct rest; [contradiction | cbn [length]; lia]).
      assert (Hdata : length data = S (length rest)) by reflexivity.
      constructor.
      * cbn [Polyline.x]. apply x_of_range; [exact H2 | lia].
      * apply Forall_app. split; apply map_index_Forall; intros k a _ Hk;
          cbn [Polyline.x]; (apply x_of_range; [exact H2 | lia]).
Qed.

(** ** Prediction requests *)

(** X16.  [getPredictions] resolves with [success] true for every symbol
    string and never with nothing: the forecast is the symbol's own entry,
    the AAPL entry for a symbol that is neither in the table nor a property
    of [Object.prototype], and the inherited property otherwise.  A forecast
    that is served is a valid one: the vote is 'subida' or 'bajada', the
    target is positive and the confidence is between 0 and 1. *)
Theorem getPredictions_serves_a_table_entry
    (self : ApiClient.t) (symbol : string) :
  ApiClient.success (ApiClient.getPredictions self symbol) = true
  /\ ApiClient.source (ApiClient.getPredictions self symbol) = "offline"
  /\ ApiClient.data (ApiClient.getPredictions self symbol) <> Js.Missing
  /\ (forall f, ApiClient.predictionBaseData !! symbol = Some f ->
                ApiClient.data (ApiClient.getPredictions self symbol)
                = Js.Own f)
  /\ (ApiClient.predictionBaseData !! symbol = None ->
      (symbol ∉ Js.Object_prototype) ->
      ApiClient.data (ApiClient.getPredictions self symbol)
      = Js.Own (App.mkForecast "subida" 195.50 0.78))
  /\ (ApiClient.predictionBaseData !! symbol = None ->
      symbol ∈ Js.Object_prototype ->
      ApiClient.data (ApiClient.getPredictions self symbol) = Js.Inherited)
  /\ (forall f, ApiClient.data (ApiClient.getPredictions self symbol)
                = Js.Own f ->
                (App.svm f = "subida" \/ App.svm f = "bajada")
                /\ 0 < App.lstm f
                /\ 0 <= App.confidence f <= 1).
Proof.
  assert (EA : Js.get ApiClient.predictionBaseData "AAPL"
               = Js.Own (App.mkForecast "subida" 195.50 0.78))
    by (vm_compute; reflexivity).
  split; [reflexivity |]. split; [reflexivity |].
  cbn [ApiClient.getPredictions ApiClient.data].
  unfold ApiClient.generateMockPredictions, ApiClient.or_AAPL.
  destruct (get_cases ApiClient.predictionBaseData symbol)
    as [(f & Hf & ->) | [(Hnone & Hin & ->) | (Hnone & Hout & ->)]].
  - split; [discriminate |]. split.
    { intros f' Hf'. rewrite Hf in Hf'. apply (inj Some) in Hf'.
      subst f'. reflexivity. }
    split; [intros H; rewrite Hf in H; discriminate |].
    split; [intros H; rewrite Hf in H; discriminate |].
    intros f' E. assert (f' = f) by congruence. subst f'.
    eapply predictionBaseData_lookup. exact Hf.
  - split; [discriminate |].
    split; [intros f' Hf'; rewrite Hnone in Hf'; discriminate |].
    split; [intros _ Hout; contradiction |].
    split; [reflexivity |]. intros f' E. discriminate E.
  - rewrite EA. split; [discriminate |].
    split; [intros f' Hf'; rewrite Hnone in Hf'; discriminate |].
    split; [reflexivity |].
    split; [intros _ Hin; contradiction |].
    intros f' E. assert (f' = App.mkForecast "subida" 195.50 0.78)
      by congruence. subst f'. cbn.
    split; [left; reflexivity | split; [lra | split; lra]].
Qed.
